(** * Co-parenting filter bot: the classification and decision pipeline

    A shallow embedding of [config.py] (moderation profiles),
    [bot/filters.py] (prompt construction, classifier call, response
    parsing, error fallback) and [bot/handlers.py] (warning composition),
    followed by the properties the specification states about them.

    Conventions.
    - A Python [str] is a Rocq [string] holding its UTF-8 bytes.
    - Python exceptions are values of [exn]; a computation that may raise
      has type [result A].  Only subclasses of [Exception] are modelled
      (what [except Exception] catches); interpreter signals such as
      KeyboardInterrupt are outside the model.
    - Calls to [logger] only write to the log and are left out. *)

From Stdlib Require Import String Ascii List ZArith Bool Lia.
Import ListNotations.
Open Scope list_scope.
Open Scope string_scope.

(** ** Exceptions and the error monad *)

Inductive exn_class : Type :=
| JSONDecodeError
| KeyError
| AttributeError
| TypeError
| IndexError
| RuntimeError
| RateLimitError
| APIConnectionError
| APITimeoutError
| OtherException (name : string).

(** An exception: its class and the text [str(e)] gives. *)
Record exn : Type := mkExn { exn_cls : exn_class; exn_str : string }.

Inductive result (A : Type) : Type :=
| Return (a : A)
| Raise (e : exn).
Arguments Return {A} a.
Arguments Raise {A} e.

Definition bind {A B : Type} (m : result A) (k : A -> result B) : result B :=
  match m with
  | Return a => k a
  | Raise e => Raise e
  end.

Declare Scope result_scope.
Delimit Scope result_scope with result.
Notation "x <- m ;; k" := (bind m (fun x => k))
  (at level 61, m at next level, right associativity) : result_scope.
Open Scope result_scope.

(** ** Python values *)

(** The values [json.loads] can produce.  A float is kept as the literal
    it was read from (no claim computes with floats); a dict is an
    association list with distinct keys in insertion order. *)
#[local] Set Warnings "-register-all".
Inductive pyvalue : Type :=
| VNone
| VBool (b : bool)
| VInt (n : Z)
| VFloat (literal : string)
| VStr (s : string)
| VList (items : list pyvalue)
| VDict (entries : list (string * pyvalue)).

#[local] Set Warnings "register-all".

Definition pydict : Type := list (string * pyvalue).

(** [repr(s)] for a [str]: single quotes, or double quotes when the
    text has a single quote and no double quote; the quote, the
    backslash and the control characters escaped.  Characters outside
    ASCII are kept as they are (Python escapes those among them that it
    does not count as printable). *)
Fixpoint contains_char (c : ascii) (s : string) : bool :=
  match s with
  | EmptyString => false
  | String a r => Ascii.eqb a c || contains_char c r
  end.

Definition hex_digit (n : nat) : ascii :=
  ascii_of_nat (if (n <? 10)%nat then 48 + n else 87 + n).

Fixpoint repr_body (quote : ascii) (s : string) : string :=
  match s with
  | EmptyString => EmptyString
  | String c r =>
      let n := nat_of_ascii c in
      let escaped (e : ascii) := String "\"%char (String e (repr_body quote r)) in
      if Ascii.eqb c quote || Ascii.eqb c "\"%char then escaped c
      else if (n =? 9)%nat then escaped "t"%char
      else if (n =? 10)%nat then escaped "n"%char
      else if (n =? 13)%nat then escaped "r"%char
      else if (n <? 32)%nat || (n =? 127)%nat then
        String "\"%char
          (String "x"%char
             (String (hex_digit (n / 16)) (String (hex_digit (n mod 16))
                (repr_body quote r))))
      else String c (repr_body quote r)
  end.

Definition str_repr (s : string) : string :=
  let quote :=
    if contains_char "'"%char s && negb (contains_char "034"%char s)
    then "034"%char else "'"%char in
  String quote (repr_body quote s ++ String quote EmptyString).

Section Dict.
Context {V : Type}.

(** [d.get(key)], [None] when the key is absent. *)
Fixpoint dict_lookup (d : list (string * V)) (key : string) : option V :=
  match d with
  | [] => None
  | (k, v) :: rest => if String.eqb k key then Some v else dict_lookup rest key
  end.

(** [d.get(key, default)]. *)
Definition dict_get (d : list (string * V)) (key : string) (default : V) : V :=
  match dict_lookup d key with
  | Some v => v
  | None => default
  end.

(** [d[key]]; the text of a KeyError is the [repr] of the key. *)
Definition dict_getitem (d : list (string * V)) (key : string) : result V :=
  match dict_lookup d key with
  | Some v => Return v
  | None => Raise (mkExn KeyError (str_repr key))
  end.

(** [key in d]. *)
Definition dict_contains (d : list (string * V)) (key : string) : bool :=
  match dict_lookup d key with
  | Some _ => true
  | None => false
  end.

(** [d[key] = v]: an existing key keeps its place. *)
Fixpoint dict_set (d : list (string * V)) (key : string) (v : V) : list (string * V) :=
  match d with
  | [] => [(key, v)]
  | (k, w) :: rest =>
      if String.eqb k key then (k, v) :: rest else (k, w) :: dict_set rest key v
  end.

(** [dict(pairs)]. *)
Definition dict_of_pairs (pairs : list (string * V)) : list (string * V) :=
  fold_left (fun d kv => dict_set d (fst kv) (snd kv)) pairs [].
End Dict.

(** ** Strings *)

Definition bytes (codes : list nat) : string :=
  string_of_list_ascii (map ascii_of_nat codes).

(** The double quote character, as a string. *)
Definition dq : string := bytes [34].

(** [with_quotes s] is [s] with every backtick replaced by a double
    quote; it lets the texts below be written as they stand in the
    source. *)
Fixpoint with_quotes (s : string) : string :=
  match s with
  | EmptyString => EmptyString
  | String c r =>
      String (if Ascii.eqb c "`"%char then ascii_of_nat 34 else c) (with_quotes r)
  end.

Fixpoint string_rev (s : string) : string :=
  match s with
  | EmptyString => EmptyString
  | String c r => string_rev r ++ String c EmptyString
  end.

(** [sep.join(parts)]. *)
Fixpoint join (sep : string) (parts : list string) : string :=
  match parts with
  | [] => EmptyString
  | [p] => p
  | p :: rest => p ++ sep ++ join sep rest
  end.

(** [drop_prefix p s] is the rest of [s] after the prefix [p]. *)
Fixpoint drop_prefix (p s : string) : option string :=
  match p, s with
  | EmptyString, _ => Some s
  | String a p', String b s' => if Ascii.eqb a b then drop_prefix p' s' else None
  | String _ _, EmptyString => None
  end.

(** The line break. *)
Definition nl : string := bytes [10].

(** [occurs t s]: [t] is a substring of [s]; [occursb] decides it. *)
Definition occurs (t s : string) : Prop :=
  exists pre post, s = pre ++ t ++ post.

Definition ends_with (s t : string) : Prop :=
  exists pre, s = pre ++ t.

Fixpoint occursb (t s : string) : bool :=
  match s with
  | EmptyString => match drop_prefix t s with Some _ => true | None => false end
  | String _ r => match drop_prefix t s with Some _ => true | None => occursb t r end
  end.

(** Every string of [lines] after a line break. *)
Fixpoint prefixed_lines (lines : list string) : string :=
  match lines with
  | [] => EmptyString
  | x :: rest => nl ++ x ++ prefixed_lines rest
  end.

(** The characters [str.isspace] accepts, in UTF-8: U+0009..000D,
    U+001C..001F, U+0020, U+0085, U+00A0, U+1680, U+2000..200A, U+2028,
    U+2029, U+202F, U+205F, U+3000. *)
Definition py_whitespace : list string :=
  (map (fun c => bytes [c]) [9; 10; 11; 12; 13; 28; 29; 30; 31; 32]
   ++ [bytes [194; 133]; bytes [194; 160]; bytes [225; 154; 128]]
   ++ map (fun c => bytes [226; 128; c])
        [128; 129; 130; 131; 132; 133; 134; 135; 136; 137; 138]
   ++ [bytes [226; 128; 168]; bytes [226; 128; 169]; bytes [226; 128; 175];
       bytes [226; 129; 159]; bytes [227; 128; 128]])%list.

Fixpoint drop_any (encs : list string) (s : string) : option string :=
  match encs with
  | [] => None
  | e :: rest =>
      match drop_prefix e s with
      | Some r => Some r
      | None => drop_any rest s
      end
  end.

Fixpoint lstrip_chars (fuel : nat) (encs : list string) (s : string) : string :=
  match fuel with
  | O => s
  | S fuel' =>
      match drop_any encs s with
      | Some r => lstrip_chars fuel' encs r
      | None => s
      end
  end.

(** [s.strip()]: leading and trailing whitespace removed. *)
Definition strip (s : string) : string :=
  let l := lstrip_chars (String.length s) py_whitespace s in
  string_rev (lstrip_chars (String.length l) (map string_rev py_whitespace) (string_rev l)).

(** ** The JSON decoder

    [Json.loads] follows the decoder of the Python standard library
    ([json/scanner.py] and [json/decoder.py], default options): the
    grammar of RFC 8259 extended with [NaN], [Infinity] and [-Infinity],
    whitespace being space, tab, line feed and carriage return.  [None]
    stands for JSONDecodeError.  Recursion is on a fuel: any two nested
    calls consume at least one character, so twice the length of the
    input is enough.  The interpreter's recursion limit and its limit on
    the digits of an integer literal are not modelled. *)
Module Json.

Definition is_ws (c : ascii) : bool :=
  match c with
  | " "%char | "009"%char | "010"%char | "013"%char => true
  | _ => false
  end.

Fixpoint skip_ws (s : string) : string :=
  match s with
  | String c r => if is_ws c then skip_ws r else s
  | EmptyString => s
  end.

Definition is_digit (c : ascii) : bool :=
  let n := nat_of_ascii c in (48 <=? n)%nat && (n <=? 57)%nat.

Definition hex_value (c : ascii) : option N :=
  let n := N_of_ascii c in
  if (48 <=? n)%N && (n <=? 57)%N then Some (n - 48)%N
  else if (65 <=? n)%N && (n <=? 70)%N then Some (n - 55)%N
  else if (97 <=? n)%N && (n <=? 102)%N then Some (n - 87)%N
  else None.

(** [_decode_uXXXX]: four hexadecimal digits. *)
Definition decode_uXXXX (s : string) : option (N * string) :=
  match s with
  | String a (String b (String c (String d r))) =>
      match hex_value a, hex_value b, hex_value c, hex_value d with
      | Some x, Some y, Some z, Some w =>
          Some (((x * 16 + y) * 16 + z) * 16 + w, r)%N
      | _, _, _, _ => None
      end
  | _ => None
  end.

(** [chr(uni)], in (generalised) UTF-8. *)
Definition chr (uni : N) : string :=
  let b (n : N) := ascii_of_N n in
  let cont (n : N) := b (128 + N.land n 63)%N in
  if (uni <? 128)%N then String (b uni) EmptyString
  else if (uni <? 2048)%N then
    String (b (192 + N.shiftr uni 6)%N) (String (cont uni) EmptyString)
  else if (uni <? 65536)%N then
    String (b (224 + N.shiftr uni 12)%N)
      (String (cont (N.shiftr uni 6)) (String (cont uni) EmptyString))
  else
    String (b (240 + N.shiftr uni 18)%N)
      (String (cont (N.shiftr uni 12))
         (String (cont (N.shiftr uni 6)) (String (cont uni) EmptyString))).

(** The table BACKSLASH of the decoder. *)
Definition backslash (c : ascii) : option string :=
  match c with
  | "034"%char => Some dq
  | "\"%char => Some "\"
  | "/"%char => Some "/"
  | "b"%char => Some (bytes [8])
  | "f"%char => Some (bytes [12])
  | "n"%char => Some (bytes [10])
  | "r"%char => Some (bytes [13])
  | "t"%char => Some (bytes [9])
  | _ => None
  end.

(** [scanstring], entered after the opening quote, strict mode: the
    decoded string and the input after the closing quote. *)
Fixpoint scanstring (fuel : nat) (s : string) : option (string * string) :=
  match fuel with
  | O => None
  | S fuel' =>
      match s with
      | EmptyString => None
      | String "034"%char r => Some (EmptyString, r)
      | String "\"%char (String "u"%char r) =>
          match decode_uXXXX r with
          | None => None
          | Some (uni, r1) =>
              let low :=
                if (55296 <=? uni)%N && (uni <=? 56319)%N then
                  match r1 with
                  | String "\"%char (String "u"%char r2) =>
                      match decode_uXXXX r2 with
                      | Some (uni2, r3) =>
                          if (56320 <=? uni2)%N && (uni2 <=? 57343)%N
                          then Some (uni2, r3) else None
                      | None => None
                      end
                  | _ => None
                  end
                else None in
              let '(code, rest) :=
                match low with
                | Some (uni2, r3) =>
                    (65536 + N.lor (N.shiftl (uni - 55296) 10) (uni2 - 56320), r3)%N
                | None => (uni, r1)
                end in
              match scanstring fuel' rest with
              | Some (str, out) => Some (chr code ++ str, out)
              | None => None
              end
          end
      | String "\"%char (String e r) =>
          match backslash e with
          | Some ch =>
              match scanstring fuel' r with
              | Some (str, out) => Some (ch ++ str, out)
              | None => None
              end
          | None => None
          end
      | String "\"%char EmptyString => None
      | String c r =>
          if (nat_of_ascii c <? 32)%nat then None
          else
            match scanstring fuel' r with
            | Some (str, out) => Some (String c str, out)
            | None => None
            end
      end
  end.

(** A maximal run of decimal digits and what follows it. *)
Fixpoint digits (s : string) : string * string :=
  match s with
  | String c r =>
      if is_digit c then let '(d, out) := digits r in (String c d, out)
      else (EmptyString, s)
  | EmptyString => (EmptyString, s)
  end.

Definition int_of_digits (d : string) : Z :=
  fold_left (fun acc c => acc * 10 + Z.of_nat (nat_of_ascii c - 48))%Z
    (list_ascii_of_string d) 0%Z.

(** NUMBER_RE: an optional minus sign, then 0 or a digit run without a
    leading 0; optionally a dot and digits; optionally e or E, a sign and
    digits.  With a fraction or an exponent the number is a float. *)
Definition match_number (s : string) : option (pyvalue * string) :=
  let '(sign, s1) :=
    match s with
    | String "-"%char r => ("-", r)
    | _ => (EmptyString, s)
    end in
  let integer :=
    match s1 with
    | String "0"%char r => Some ("0", r)
    | String c _ => if is_digit c then Some (digits s1) else None
    | EmptyString => None
    end in
  match integer with
  | None => None
  | Some (int_part, s2) =>
      let '(frac, s3) :=
        match s2 with
        | String "."%char r =>
            match digits r with
            | (EmptyString, _) => (EmptyString, s2)
            | (d, out) => ("." ++ d, out)
            end
        | _ => (EmptyString, s2)
        end in
      let '(exp, s4) :=
        match s3 with
        | String e r =>
            if Ascii.eqb e "e"%char || Ascii.eqb e "E"%char then
              let '(esign, r1) :=
                match r with
                | String "-"%char r' => ("-", r')
                | String "+"%char r' => ("+", r')
                | _ => (EmptyString, r)
                end in
              match digits r1 with
              | (EmptyString, _) => (EmptyString, s3)
              | (d, out) => (String e (esign ++ d), out)
              end
            else (EmptyString, s3)
        | EmptyString => (EmptyString, s3)
        end in
      match frac, exp with
      | EmptyString, EmptyString =>
          let n := int_of_digits int_part in
          Some (VInt (if String.eqb sign "-" then - n else n)%Z, s4)
      | _, _ => Some (VFloat (sign ++ int_part ++ frac ++ exp), s4)
      end
  end.

(** [scan_once], [JSONArray] and [JSONObject].  [array_items] and
    [object_pairs] are entered where an element, respectively a key's
    opening quote, is expected. *)
Fixpoint scan_once (fuel : nat) (s : string) : option (pyvalue * string) :=
  match fuel with
  | O => None
  | S fuel' =>
      match s with
      | String "034"%char r =>
          match scanstring (S (String.length r)) r with
          | Some (str, out) => Some (VStr str, out)
          | None => None
          end
      | String "{"%char r =>
          match skip_ws r with
          | String "}"%char out => Some (VDict [], out)
          | String "034"%char r1 =>
              match object_pairs fuel' r1 with
              | Some (pairs, out) => Some (VDict (dict_of_pairs pairs), out)
              | None => None
              end
          | _ => None
          end
      | String "["%char r =>
          match skip_ws r with
          | String "]"%char out => Some (VList [], out)
          | r1 =>
              match array_items fuel' r1 with
              | Some (items, out) => Some (VList items, out)
              | None => None
              end
          end
      | _ =>
          match drop_prefix "null" s, drop_prefix "true" s, drop_prefix "false" s with
          | Some out, _, _ => Some (VNone, out)
          | _, Some out, _ => Some (VBool true, out)
          | _, _, Some out => Some (VBool false, out)
          | None, None, None =>
              match match_number s with
              | Some r => Some r
              | None =>
                  match drop_prefix "NaN" s, drop_prefix "Infinity" s,
                        drop_prefix "-Infinity" s with
                  | Some out, _, _ => Some (VFloat "nan", out)
                  | _, Some out, _ => Some (VFloat "inf", out)
                  | _, _, Some out => Some (VFloat "-inf", out)
                  | None, None, None => None
                  end
              end
          end
      end
  end
with array_items (fuel : nat) (s : string) : option (list pyvalue * string) :=
  match fuel with
  | O => None
  | S fuel' =>
      match scan_once fuel' s with
      | None => None
      | Some (v, r) =>
          match skip_ws r with
          | String "]"%char out => Some ([v], out)
          | String ","%char r1 =>
              match array_items fuel' (skip_ws r1) with
              | Some (items, out) => Some (v :: items, out)
              | None => None
              end
          | _ => None
          end
      end
  end
with object_pairs (fuel : nat) (s : string) : option (list (string * pyvalue) * string) :=
  match fuel with
  | O => None
  | S fuel' =>
      match scanstring (S (String.length s)) s with
      | None => None
      | Some (key, r) =>
          match skip_ws r with
          | String ":"%char r1 =>
              match scan_once fuel' (skip_ws r1) with
              | None => None
              | Some (v, r2) =>
                  match skip_ws r2 with
                  | String "}"%char out => Some ([(key, v)], out)
                  | String ","%char r3 =>
                      match skip_ws r3 with
                      | String "034"%char r4 =>
                          match object_pairs fuel' r4 with
                          | Some (pairs, out) => Some ((key, v) :: pairs, out)
                          | None => None
                          end
                      | _ => None
                      end
                  | _ => None
                  end
              end
          | _ => None
          end
      end
  end.

(** [json.loads(s)] for a [str] argument: one value between optional
    whitespace, anything after it being an error (Extra data). *)
Definition loads (s : string) : result pyvalue :=
  match scan_once (2 * String.length s + 2) (skip_ws s) with
  | Some (v, r) =>
      match skip_ws r with
      | EmptyString => Return v
      | _ => Raise (mkExn JSONDecodeError "Extra data")
      end
  | None => Raise (mkExn JSONDecodeError "Expecting value")
  end.

End Json.

(** ** [try] with several [except] clauses *)

Definition exn_class_eqb (a b : exn_class) : bool :=
  match a, b with
  | JSONDecodeError, JSONDecodeError
  | KeyError, KeyError
  | AttributeError, AttributeError
  | TypeError, TypeError
  | IndexError, IndexError
  | RuntimeError, RuntimeError
  | RateLimitError, RateLimitError
  | APIConnectionError, APIConnectionError
  | APITimeoutError, APITimeoutError => true
  | OtherException x, OtherException y => String.eqb x y
  | _, _ => false
  end.

(** [isinstance(e, c)]: among the modelled classes the only proper
    subclass relation is APITimeoutError below APIConnectionError. *)
Definition isinstance (e : exn) (c : exn_class) : bool :=
  exn_class_eqb (exn_cls e) c
  || (exn_class_eqb (exn_cls e) APITimeoutError && exn_class_eqb c APIConnectionError).

(** One [except] clause: [Except cs h] is [except (cs) as e: h e] and
    [ExceptException h] is [except Exception as e: h e]. *)
Inductive clause (A : Type) : Type :=
| Except (classes : list exn_class) (handler : exn -> result A)
| ExceptException (handler : exn -> result A).
Arguments Except {A} classes handler.
Arguments ExceptException {A} handler.

(** The first clause that matches handles the exception; with none it
    propagates. *)
Fixpoint dispatch {A : Type} (clauses : list (clause A)) (e : exn) : result A :=
  match clauses with
  | [] => Raise e
  | Except cs h :: rest => if existsb (isinstance e) cs then h e else dispatch rest e
  | ExceptException h :: _ => h e
  end.

Definition try_catch {A : Type} (body : result A) (clauses : list (clause A)) : result A :=
  match body with
  | Return a => Return a
  | Raise e => dispatch clauses e
  end.

(** ** [config.py]: moderation profiles *)

(** A profile dict.  Every profile of [config.py] has the keys name,
    description and behaviors, which the code reads with
    [profile[key]]; permissive_mode is read with [profile.get], so the
    key may be absent ([None]). *)
Record Profile : Type := mkProfile {
  name : string;
  description : string;
  behaviors : list string;
  permissive_mode : option bool
}.

Definition MODERATION_PROFILES : list (string * Profile) :=
  [ ("manipulative_coparent",
     {| name := "Manipulative Co-Parent";
        description := "Someone who tends toward performative behavior, narrative crafting, and inconsistent actions";
        behaviors :=
          [ "performative posturing without follow-through";
            "crafting narratives about being good while failing to take positive action";
            "manipulative language designed to appear reasonable";
            "deflection from actual logistics to emotional manipulation";
            "making themselves appear as the victim or hero";
            "saying the right things but consistently failing to act";
            "using guilt, blame, or emotional pressure instead of facts";
            "grandstanding or virtue signaling without substance" ];
        permissive_mode := Some true |});
    ("standard",
     {| name := "Standard Moderation";
        description := "Basic co-parenting topic filtering";
        behaviors := [];
        permissive_mode := Some true |}) ].

(** ** [bot/filters.py] *)

Record ModerationResponse : Type := mkResponse {
  allow : pyvalue;
  reason : pyvalue;
  category : pyvalue
}.

(** [type(v).__name__]. *)
Definition type_name (v : pyvalue) : string :=
  match v with
  | VNone => "NoneType"
  | VBool _ => "bool"
  | VInt _ => "int"
  | VFloat _ => "float"
  | VStr _ => "str"
  | VList _ => "list"
  | VDict _ => "dict"
  end.

(** [data.get(key, default)] on whatever [json.loads] returned: only a
    dict has the method. *)
Definition py_get (data : pyvalue) (key : string) (default : pyvalue) : result pyvalue :=
  match data with
  | VDict d => Return (dict_get d key default)
  | _ => Raise (mkExn AttributeError
                  ("'" ++ type_name data ++ "' object has no attribute 'get'"))
  end.

Definition base_prompt_text : string := Eval vm_compute in with_quotes
"You are a co-parenting message moderator. Your job is to evaluate messages for appropriateness in a co-parenting logistics group.

CORE RULES:
1. ALLOW messages about: children's health, education, scheduling, logistics, emergencies
2. BE PERMISSIVE: When in doubt or if context is unclear, ALLOW the message
3. Only BLOCK messages that are OBVIOUSLY inappropriate

RESPONSE FORMAT: Return ONLY valid JSON in this exact format:
{`allow`: true/false, `reason`: `specific explanation`, `category`: `reason_category`}

".

Definition profile_prompt_head : string := "
MODERATION PROFILE: ".

Definition profile_prompt_watch : string := "
Watch specifically for these behavioral patterns:
".

Definition profile_prompt_tail : string := Eval vm_compute in with_quotes
"

When blocking, use specific language about what pattern was detected.
Examples of targeted responses:
- `This appears to be performative posturing rather than actionable co-parenting communication`
- `This message deflects from logistics to emotional manipulation`
- `This seems designed to craft a narrative rather than address children's needs`
- `This appears to be grandstanding without substance about children's welfare`

".

Definition closing_text : string := Eval vm_compute in with_quotes
"
EXAMPLES:
{`allow`: true, `reason`: `Legitimate scheduling discussion`, `category`: `scheduling`}
{`allow`: false, `reason`: `This appears to be performative posturing rather than actionable co-parenting communication`, `category`: `performative`}
{`allow`: true, `reason`: `Unclear context but potentially legitimate`, `category`: `permissive`}

Remember: When message intent is unclear or ambiguous, ALWAYS err on the side of allowing it.".

(** The last sentence of [closing_text], and what precedes it. *)
Definition bias_instruction : string :=
  "Remember: When message intent is unclear or ambiguous, ALWAYS err on the side of allowing it.".

Definition closing_examples : string := Eval vm_compute in
  substring 0 (String.length closing_text - String.length bias_instruction) closing_text.

(** The body of [_build_system_prompt] once the profile is resolved. *)
Definition system_prompt (profile : Profile) : string :=
  let base_prompt := base_prompt_text in
  let base_prompt :=
    match behaviors profile with
    | [] => base_prompt
    | _ :: _ =>
        let behavior_text :=
          join nl (map (fun behavior => "- " ++ behavior) (behaviors profile)) in
        let profile_prompt :=
          profile_prompt_head ++ name profile ++ profile_prompt_watch
          ++ behavior_text ++ profile_prompt_tail in
        base_prompt ++ profile_prompt
    end in
  base_prompt ++ closing_text.

(** The request [client.chat.completions.create] receives and the part
    of its answer the code reads: [choices[i].message.content], [None]
    when a choice carries no text. *)
Record ChatMessage : Type := mkMessage { role : string; content : string }.

Record ChatRequest : Type := mkRequest {
  model : string;
  messages : list ChatMessage;
  max_tokens : Z;
  temperature : string;
  timeout : string
}.

Record ChatCompletion : Type := mkCompletion { choices : list (option string) }.

(** [l[0]]. *)
Definition first_item {A : Type} (l : list A) : result A :=
  match l with
  | x :: _ => Return x
  | [] => Raise (mkExn IndexError "list index out of range")
  end.

(** [content.strip()]: [None] has no such method. *)
Definition py_strip (content : option string) : result string :=
  match content with
  | Some s => Return (strip s)
  | None => Raise (mkExn AttributeError "'NoneType' object has no attribute 'strip'")
  end.

Definition parsing_error_response : ModerationResponse :=
  mkResponse (VBool false) (VStr "Message could not be properly evaluated") (VStr "parsing_error").

Definition error_permissive_response : ModerationResponse :=
  mkResponse (VBool true) (VStr "Unable to evaluate - allowing due to permissive mode")
    (VStr "error_permissive").

Definition error_blocking_response : ModerationResponse :=
  mkResponse (VBool false) (VStr "Unable to evaluate message properly") (VStr "error_blocking").

(** The arguments of [client.chat.completions.create]. *)
Definition chat_request (system_prompt text : string) : ChatRequest :=
  {| model := "gpt-4o-mini";
     messages :=
       [ mkMessage "system" system_prompt;
         mkMessage "user" ("Evaluate this message: " ++ text) ];
     max_tokens := 150;
     temperature := "0.1";
     timeout := "15.0" |}.

Section Pipeline.

(** What the pipeline reads from its surroundings: the JSON decoder, the
    OpenAI client ([None] when its construction failed at import), the
    table of profiles and the configured profile name. *)
Variable json_loads : string -> result pyvalue.
Variable client : option (ChatRequest -> result ChatCompletion).
Variable profiles : list (string * Profile).
Variable MODERATION_PROFILE : string.

(** [Config.get_moderation_profile]; the default argument
    [MODERATION_PROFILES[standard]] is evaluated before the lookup. *)
Definition get_moderation_profile : result Profile :=
  standard <- dict_getitem profiles "standard" ;;
  Return (dict_get profiles MODERATION_PROFILE standard).

(** [ModerationResponse.from_json]. *)
Definition from_json (json_str : string) : result ModerationResponse :=
  try_catch
    (data <- json_loads json_str ;;
     allow <- py_get data "allow" (VBool false) ;;
     reason <- py_get data "reason" (VStr "No reason provided") ;;
     category <- py_get data "category" (VStr "") ;;
     Return (mkResponse allow reason category))
    [ Except [JSONDecodeError; KeyError] (fun e => Return parsing_error_response) ].

Definition _build_system_prompt : result string :=
  profile <- get_moderation_profile ;;
  Return (system_prompt profile).

Definition _classify_with_openai (text : string) : result ModerationResponse :=
  match client with
  | None => Raise (mkExn RuntimeError "OpenAI client not initialized")
  | Some create =>
      try_catch
        (system_prompt <- _build_system_prompt ;;
         response <- create (chat_request system_prompt text) ;;
         choice <- first_item (choices response) ;;
         result <- py_strip choice ;;
         from_json result)
        [ Except [RateLimitError] (fun _ =>
            Raise (mkExn RuntimeError "AI service temporarily unavailable (rate limit)"));
          Except [APIConnectionError] (fun _ =>
            Raise (mkExn RuntimeError "AI service connection failed"));
          Except [APITimeoutError] (fun _ =>
            Raise (mkExn RuntimeError "AI service timeout"));
          ExceptException (fun e =>
            Raise (mkExn RuntimeError ("AI service error: " ++ exn_str e))) ]
  end.

Definition classify (text : string) : result ModerationResponse :=
  try_catch (_classify_with_openai text)
    [ ExceptException (fun e =>
        profile <- get_moderation_profile ;;
        if match permissive_mode profile with Some flag => flag | None => true end
        then Return error_permissive_response
        else Return error_blocking_response) ].

End Pipeline.

(** ** [bot/handlers.py]: the warning message *)

Definition base_message : string :=
  "This group is for co-parenting logistics only (health, education, scheduling, logistics).".

Definition category_messages : list (string * string) :=
  [ ("performative", "Your message appeared to be performative posturing rather than actionable co-parenting communication.");
    ("manipulation", "Your message seemed to deflect from logistics to emotional manipulation.");
    ("narrative", "Your message appeared to craft a narrative rather than address children's needs.");
    ("grandstanding", "Your message seemed to be grandstanding without substance about children's welfare.");
    ("off_topic", "Your message was off-topic for this co-parenting logistics group.");
    ("emotional_pressure", "Your message used emotional pressure instead of focusing on factual logistics.");
    ("deflection", "Your message deflected from actual logistics to other topics.") ].

Definition generic_reasons : list string :=
  [ "No reason provided"; "Message could not be properly evaluated" ].

(** [v in strs] for a list of [str]: only an equal string is a member. *)
Definition in_strings (v : pyvalue) (strs : list string) : bool :=
  match v with
  | VStr s => existsb (String.eqb s) strs
  | _ => false
  end.

(** [v in d] for a dict with [str] keys: the key is hashed first, and a
    list or a dict is unhashable. *)
Definition in_dict {V : Type} (v : pyvalue) (d : list (string * V)) : result bool :=
  match v with
  | VStr s => Return (dict_contains d s)
  | VList _ | VDict _ =>
      Raise (mkExn TypeError ("unhashable type: '" ++ type_name v ++ "'"))
  | _ => Return false
  end.

(** [d[v]] for the same kind of dict. *)
Definition getitem {V : Type} (d : list (string * V)) (v : pyvalue) : result V :=
  match v with
  | VStr s => dict_getitem d s
  | VList _ | VDict _ =>
      Raise (mkExn TypeError ("unhashable type: '" ++ type_name v ++ "'"))
  | _ => Raise (mkExn KeyError (type_name v))
  end.

Section Warning.

(** [str(v)] for a value that is not a [str]; how Python prints numbers
    and containers is left open. *)
Variable builtin_str : pyvalue -> string.

(** What an f-string puts in place of [{v}]. *)
Definition format_value (v : pyvalue) : string :=
  match v with
  | VStr s => s
  | _ => builtin_str v
  end.

Definition _build_warning_message (moderation_result : ModerationResponse) : result string :=
  let specific_reason := reason moderation_result in
  (* [and] evaluates its second operand only when the first holds *)
  generic <-
    (if in_strings specific_reason generic_reasons
     then in_dict (category moderation_result) category_messages
     else Return false) ;;
  specific_reason <-
    (if generic : bool
     then explanation <- getitem category_messages (category moderation_result) ;;
          Return (VStr explanation)
     else Return specific_reason) ;;
  Return (base_message ++ " " ++ format_value specific_reason).

End Warning.

(** ** [bot/filters.py]: [ModerationResponse.to_dict] *)

Definition to_dict (self : ModerationResponse) : pydict :=
  [ ("allow", allow self); ("reason", reason self); ("category", category self) ].

(** ** [config.py]: the [Config] class *)

(** The class attributes, read from the environment at import. *)
Record Config : Type := mkConfig {
  BOT_TOKEN : string;
  OPENAI_API_KEY : string;
  TARGET_USERNAME : string;
  MODERATION_PROFILE : string;
  LOG_LEVEL : string
}.

(** ValueError is not among the classes the pipeline tells apart. *)
Definition ValueError : exn_class := OtherException "ValueError".

(** [s.lstrip(c)] for a single character [c]. *)
Fixpoint lstrip_char (c : ascii) (s : string) : string :=
  match s with
  | String a r => if Ascii.eqb a c then lstrip_char c r else s
  | EmptyString => s
  end.

(** [Config.validate], over the table of profiles. *)
Definition validate (profiles : list (string * Profile)) (cls : Config) : result unit :=
  let missing : list string := [] in
  let missing :=
    if String.eqb (BOT_TOKEN cls) "" then (missing ++ ["BOT_TOKEN"])%list else missing in
  let missing :=
    if String.eqb (OPENAI_API_KEY cls) "" then (missing ++ ["OPENAI_API_KEY"])%list
    else missing in
  let options :=
    "MODERATION_PROFILE (valid options: " ++ join ", " (map fst profiles) ++ ")" in
  let missing :=
    if negb (dict_contains profiles (MODERATION_PROFILE cls))
    then (missing ++ [options])%list
    else missing in
  match missing with
  | [] => Return tt
  | _ :: _ =>
      Raise (mkExn ValueError
               ("Missing or invalid configuration: " ++ join ", " missing ++ nl
                ++ "Please check your .env file or environment variables."))
  end.

(** [Config.get_target_username_normalized]. *)
Definition get_target_username_normalized (cls : Config) : string :=
  let username := strip (TARGET_USERNAME cls) in
  lstrip_char "@"%char username.

(** ** [bot/handlers.py]: the handlers

    What a handler reads of an update, and the calls it makes on the
    bot.  A handler is awaited from start to end for one update, so its
    calls happen in the order of the code.  A computation of type [io A]
    is the list of the bot calls made, in order, with the outcome.
    Writing to the log and to the standard output is left out (it is
    taken to succeed). *)

Record User : Type := mkUser { username : option string }.

Record Message : Type := mkTelegramMessage {
  text : option string;
  from_user : option User;
  chat_id : Z;
  message_id : Z
}.

Record Update : Type := mkUpdate { message : option Message }.

Inductive BotCall : Type :=
| delete_message (chat message : Z)
| send_message (chat : Z) (body : string)
| reply_text (to : Message) (body : string).

(** The bot: its id and how the Telegram API answers each call. *)
Record Bot : Type := mkBot {
  bot_id : Z;
  on_delete_message : Z -> Z -> result unit;
  on_send_message : Z -> string -> result Z;
  on_reply_text : Message -> string -> result unit
}.

Definition io (A : Type) : Type := (list BotCall * result A)%type.

Definition io_ret {A : Type} (a : A) : io A := ([], Return a).

Definition io_bind {A B : Type} (m : io A) (k : A -> io B) : io B :=
  match m with
  | (calls, Return a) => let (more, r) := k a in ((calls ++ more)%list, r)
  | (calls, Raise e) => (calls, Raise e)
  end.

(** [try: m  except Exception as e: h e]; the calls made before the
    exception stay made. *)
Definition io_try {A : Type} (m : io A) (h : exn -> io A) : io A :=
  match m with
  | (calls, Return a) => (calls, Return a)
  | (calls, Raise e) => let (more, r) := h e in ((calls ++ more)%list, r)
  end.

(** A computation that makes no call. *)
Definition pure_step {A : Type} (r : result A) : io A := ([], r).

(** One awaited call and its outcome. *)
Definition await {A : Type} (call : BotCall) (outcome : result A) : io A :=
  ([call], outcome).

Declare Scope io_scope.
Delimit Scope io_scope with io.
Notation "x <- m ;; k" := (io_bind m (fun x => k))
  (at level 61, m at next level, right associativity) : io_scope.

From Stdlib Require Import DecimalString.

(** [str(n)] for an int. *)
Definition str_of_int (n : Z) : string :=
  NilZero.string_of_int (Z.to_int n).

Section Handlers.

(** The surroundings of the handlers: those of the pipeline, the
    configuration, the bot, and three built-ins of Python that are left
    open: [str.lower], [str(v)] for a value that is not a [str], and the
    truth value of the float a literal denotes. *)
Variable json_loads : string -> result pyvalue.
Variable client : option (ChatRequest -> result ChatCompletion).
Variable profiles : list (string * Profile).
Variable config : Config.
Variable bot : Bot.
Variable str_lower : string -> string.
Variable builtin_str : pyvalue -> string.
Variable float_truth : string -> bool.

(** [bool(v)]. *)
Definition truthy (v : pyvalue) : bool :=
  match v with
  | VNone => false
  | VBool b => b
  | VInt n => negb (Z.eqb n 0)
  | VFloat literal => float_truth literal
  | VStr s => negb (String.eqb s "")
  | VList items => match items with [] => false | _ :: _ => true end
  | VDict entries => match entries with [] => false | _ :: _ => true end
  end.

Definition _delete_message_and_warn (message : Message)
    (moderation_result : ModerationResponse) : io unit :=
  io_try
    (_ <- await (delete_message (chat_id message) (message_id message))
            (on_delete_message bot (chat_id message) (message_id message)) ;;
     warning_text <- pure_step (_build_warning_message builtin_str moderation_result) ;;
     warning_msg <- await (send_message (chat_id message) warning_text)
                      (on_send_message bot (chat_id message) warning_text) ;;
     io_ret tt)%io
    (fun e => io_ret tt).

Definition handle_message (update : Update) : io unit :=
  match message update with
  | None => io_ret tt
  | Some message =>
      match text message with
      | None => io_ret tt
      | Some message_text =>
          if String.eqb message_text "" then io_ret tt
          else
            let username :=
              match from_user message with
              | Some user => username user
              | None => None
              end in
            let target_username := get_target_username_normalized config in
            match username with
            | None => io_ret tt
            | Some username =>
                if String.eqb username ""
                   || negb (String.eqb (str_lower username) (str_lower target_username))
                then io_ret tt
                else
                  let text := strip message_text in
                  if String.eqb text "" then io_ret tt
                  else
                    io_try
                      (moderation_result <-
                         pure_step (classify json_loads client profiles
                                      (MODERATION_PROFILE config) text) ;;
                       if truthy (allow moderation_result) then io_ret tt
                       else _delete_message_and_warn message moderation_result)%io
                      (fun e => io_ret tt)
            end
      end
  end.

(** [profile.get(permissive_mode)], without a default, as a condition. *)
Definition permissive_shown (profile : Profile) : bool :=
  match permissive_mode profile with
  | Some flag => flag
  | None => false
  end.

Definition handle_start (update : Update) : io unit :=
  match message update with
  | None => io_ret tt
  | Some message =>
      (profile <- pure_step (get_moderation_profile profiles (MODERATION_PROFILE config)) ;;
       let response :=
         "🤖 Co-Parent Filter Bot is running!" ++ nl ++ nl
         ++ "📍 Monitoring messages from: @" ++ get_target_username_normalized config ++ nl
         ++ "🎯 Moderation Profile: " ++ name profile ++ nl
         ++ "📋 Filtering for co-parenting topics: health, education, scheduling, logistics" ++ nl
         ++ "🔍 Mode: "
         ++ (if permissive_shown profile
             then "Permissive (only blocks obviously problematic content)"
             else "Strict")
         ++ nl ++ nl
         ++ "Bot is ready and actively monitoring with detailed feedback." in
       await (reply_text message response) (on_reply_text bot message response))%io
  end.

Definition handle_status (update : Update) : io unit :=
  match message update with
  | None => io_ret tt
  | Some message =>
      (profile <- pure_step (get_moderation_profile profiles (MODERATION_PROFILE config)) ;;
       let status :=
         "📊 Bot Status:" ++ nl
         ++ "✅ Active and monitoring @" ++ get_target_username_normalized config ++ nl
         ++ "🎯 Profile: " ++ name profile ++ nl
         ++ "🔍 Filtering: health, education, scheduling, logistics" ++ nl
         ++ "🤖 AI Model: GPT-4o with detailed reasoning" ++ nl
         ++ "⚙️ Mode: " ++ (if permissive_shown profile then "Permissive" else "Strict") ++ nl
         ++ "🆔 Bot ID: " ++ str_of_int (bot_id bot) ++ nl
         ++ "💬 Chat ID: " ++ str_of_int (chat_id message) in
       await (reply_text message status) (on_reply_text bot message status))%io
  end.

Definition handle_profile (update : Update) : io unit :=
  match message update with
  | None => io_ret tt
  | Some message =>
      (profile <- pure_step (get_moderation_profile profiles (MODERATION_PROFILE config)) ;;
       let profile_info :=
         "🎯 Current Moderation Profile: " ++ name profile ++ nl ++ nl
         ++ "📝 Description: " ++ description profile ++ nl ++ nl in
       let profile_info :=
         match behaviors profile with
         | [] => profile_info
         | _ :: _ =>
             let behaviors_text :=
               join nl (map (fun behavior => "• " ++ behavior) (behaviors profile)) in
             profile_info ++ "🔍 Watching for these patterns:" ++ nl
             ++ behaviors_text ++ nl ++ nl
         end in
       let profile_info :=
         profile_info ++ "⚙️ Mode: "
         ++ (if permissive_shown profile
             then "Permissive (only blocks obvious violations)"
             else "Strict (blocks any violations)") in
       await (reply_text message profile_info) (on_reply_text bot message profile_info))%io
  end.

End Handlers.

(** ** [bot/handlers.py]: [handle_message] and the standard output

    [Stdout.handle_message] is [handle_message] with its calls of
    [print], which raise when the standard output cannot encode a line
    (UnicodeEncodeError), and with the time stamp the lines carry.  The
    handler above is the case of an output that takes every line. *)

(** A byte that continues a character in UTF-8. *)
Definition is_continuation (c : ascii) : bool :=
  let n := nat_of_ascii c in (128 <=? n)%nat && (n <? 192)%nat.

(** [len(s)], in characters. *)
Fixpoint char_length (s : string) : nat :=
  match s with
  | EmptyString => 0
  | String c r => (if is_continuation c then 0 else 1) + char_length r
  end.

(** [s[:n]], in characters. *)
Fixpoint take_chars (n : nat) (s : string) : string :=
  match s with
  | EmptyString => EmptyString
  | String c r =>
      if is_continuation c then String c (take_chars n r)
      else
        match n with
        | O => EmptyString
        | S n' => String c (take_chars n' r)
        end
  end.

Module Stdout.
Section Handlers.

Variable json_loads : string -> result pyvalue.
Variable client : option (ChatRequest -> result ChatCompletion).
Variable profiles : list (string * Profile).
Variable config : Config.
Variable bot : Bot.
Variable str_lower : string -> string.
Variable builtin_str : pyvalue -> string.
Variable float_truth : string -> bool.

(** [datetime.now().isoformat()] at the time of the call, and what
    [print] does with a line. *)
Variable timestamp : string.
Variable print : string -> result unit.

Definition preview (text : string) : string :=
  if (50 <? char_length text)%nat then take_chars 50 text ++ "..." else text.

Definition log_message (username text : string) (moderation_result : ModerationResponse)
    : string :=
  "[" ++ timestamp ++ "] @" ++ username ++ ": '" ++ preview text ++ "' -> "
  ++ (if truthy float_truth (allow moderation_result) then "ALLOW" else "BLOCK")
  ++ " (" ++ format_value builtin_str (category moderation_result) ++ "): "
  ++ format_value builtin_str (reason moderation_result).

Definition error_log (username text : string) (e : exn) : string :=
  "[" ++ timestamp ++ "] @" ++ username ++ ": '" ++ take_chars 50 text
  ++ "...' -> ERROR: " ++ exn_str e.

Definition handle_message (update : Update) : io unit :=
  match message update with
  | None => io_ret tt
  | Some message =>
      match text message with
      | None => io_ret tt
      | Some message_text =>
          if String.eqb message_text "" then io_ret tt
          else
            let username :=
              match from_user message with
              | Some user => username user
              | None => None
              end in
            let target_username := get_target_username_normalized config in
            match username with
            | None => io_ret tt
            | Some username =>
                if String.eqb username ""
                   || negb (String.eqb (str_lower username) (str_lower target_username))
                then io_ret tt
                else
                  let text := strip message_text in
                  if String.eqb text "" then io_ret tt
                  else
                    io_try
                      (moderation_result <-
                         pure_step (classify json_loads client profiles
                                      (MODERATION_PROFILE config) text) ;;
                       let log_message := log_message username text moderation_result in
                       if truthy float_truth (allow moderation_result)
                       then pure_step (print ("✅ ALLOWED: " ++ log_message))
                       else
                         _ <- pure_step (print ("❌ BLOCKED: " ++ log_message)) ;;
                         _delete_message_and_warn bot builtin_str message
                           moderation_result)%io
                      (fun e =>
                         let error_log := error_log username text e in
                         pure_step (print ("⚠️ ERROR: " ++ error_log)))
            end
      end
  end.

End Handlers.
End Stdout.

(** ** Notions used in the statements *)

(** The profile stored under standard in [MODERATION_PROFILES]. *)
Definition standard_profile : Profile :=
  {| name := "Standard Moderation";
     description := "Basic co-parenting topic filtering";
     behaviors := [];
     permissive_mode := Some true |}.



(** The response of [classify] when the classifier call has raised:
    blocking only for a profile whose permissive flag is False. *)
Definition fallback_response (profile : Profile) : ModerationResponse :=
  match permissive_mode profile with
  | Some false => error_blocking_response
  | _ => error_permissive_response
  end.

(** The response [from_json] makes of a decoded object. *)
Definition response_of_object (d : pydict) : ModerationResponse :=
  mkResponse (dict_get d "allow" (VBool false))
    (dict_get d "reason" (VStr "No reason provided"))
    (dict_get d "category" (VStr "")).

(** [hash(v)] raises: lists and dicts are unhashable. *)
Definition unhashable (v : pyvalue) : bool :=
  match v with
  | VList _ | VDict _ => true
  | _ => false
  end.

(** The text of the RuntimeError that the [except] clauses of
    [_classify_with_openai] raise for the exception [e0] of the body:
    the clauses for rate limits and connection errors have their fixed
    texts, the last clause appends [str(e0)]. *)
Definition reported_text (e0 : exn) : string :=
  match exn_cls e0 with
  | RateLimitError => "AI service temporarily unavailable (rate limit)"
  | APIConnectionError | APITimeoutError => "AI service connection failed"
  | _ => "AI service error: " ++ exn_str e0
  end.

(** ** Configurations for the examples *)

(** A table with a strict profile and one without the permissive_mode
    key, and a client whose call times out. *)
Definition strict_profiles : list (string * Profile) :=
  [ ("strict", mkProfile "Strict" "Blocks on failure" ["deflection"] (Some false));
    ("unset", mkProfile "Unset" "No permissive_mode key" [] None);
    ("standard", standard_profile) ].

Definition timeout_client : option (ChatRequest -> result ChatCompletion) :=
  Some (fun _ => Raise (mkExn APITimeoutError "Request timed out.")).

(** A bot whose calls succeed, a configuration
    that watches the user parent, an update carrying one text message,
    and lower-casing of ASCII letters to stand for [str.lower]. *)
Definition example_bot : Bot :=
  mkBot 42 (fun _ _ => Return tt) (fun _ _ => Return 8%Z) (fun _ _ => Return tt).

Definition example_config : Config :=
  mkConfig "123:token" "sk-key" " @Parent " "standard" "INFO".

Definition message_from (sender body : string) : Update :=
  mkUpdate (Some (mkTelegramMessage (Some body) (Some (mkUser (Some sender))) (-1001) 7)).

Fixpoint ascii_lower (s : string) : string :=
  match s with
  | EmptyString => EmptyString
  | String c r =>
      let n := nat_of_ascii c in
      String (if (65 <=? n)%nat && (n <=? 90)%nat then ascii_of_nat (n + 32) else c)
        (ascii_lower r)
  end.

(** A client that answers every request with the given text. *)
Definition replying (body : string) : option (ChatRequest -> result ChatCompletion) :=
  Some (fun _ => Return (mkCompletion [Some body])).

(** * Properties *)

(** ** Profile lookup *)

Lemma get_moderation_profile_ok (profiles : list (string * Profile)) (key : string)
    (std : Profile) :
  dict_lookup profiles "standard" = Some std ->
  get_moderation_profile profiles key = Return (dict_get profiles key std).
Proof.
  intros Hstd. unfold get_moderation_profile, dict_getitem.
  rewrite Hstd. reflexivity.
Qed.

Lemma get_moderation_profile_builtin (key : string) :
  get_moderation_profile MODERATION_PROFILES key
  = Return (dict_get MODERATION_PROFILES key standard_profile).
Proof. apply get_moderation_profile_ok. reflexivity. Qed.

(** C8. On the table of [config.py], [get_moderation_profile] never
    raises: for a key of the table it returns the profile stored under
    it, and for any other name the profile stored under standard, whose
    behavior list is empty and whose permissive flag is set. *)
Theorem get_moderation_profile_fallback (key : string) :
  get_moderation_profile MODERATION_PROFILES key
  = Return match dict_lookup MODERATION_PROFILES key with
           | Some profile => profile
           | None => standard_profile
           end
  /\ dict_lookup MODERATION_PROFILES "standard" = Some standard_profile
  /\ behaviors standard_profile = []
  /\ permissive_mode standard_profile = Some true.
Proof.
  split; [ | repeat split ].
  rewrite get_moderation_profile_builtin. reflexivity.
Qed.

(** ** The error fallback of [classify] *)


Section Fallback.

Variable json_loads : string -> result pyvalue.
Variable client : option (ChatRequest -> result ChatCompletion).
Variable profiles : list (string * Profile).
Variable key : string.

Lemma classify_success (text : string) (r : ModerationResponse) :
  _classify_with_openai json_loads client profiles key text = Return r ->
  classify json_loads client profiles key text = Return r.
Proof. intros H. unfold classify. rewrite H. reflexivity. Qed.

Lemma classify_failure (text : string) (e : exn) (profile : Profile) :
  _classify_with_openai json_loads client profiles key text = Raise e ->
  get_moderation_profile profiles key = Return profile ->
  classify json_loads client profiles key text
  = Return (match permissive_mode profile with
            | Some false => error_blocking_response
            | _ => error_permissive_response
            end).
Proof.
  intros Hraise Hprofile. unfold classify. rewrite Hraise. simpl.
  rewrite Hprofile. simpl.
  destruct (permissive_mode profile) as [[|]|]; reflexivity.
Qed.

(** Whatever escapes [_classify_with_openai] is a RuntimeError. *)
Lemma _classify_with_openai_raises (text : string) (e : exn) :
  _classify_with_openai json_loads client profiles key text = Raise e ->
  exn_cls e = RuntimeError.
Proof.
  unfold _classify_with_openai. destruct client as [create|].
  - match goal with |- try_catch ?body _ = _ -> _ => destruct body as [r|e0] end;
      simpl; [ discriminate | ].
    repeat match goal with
           | |- (if ?c then _ else _) = _ -> _ => destruct c
           end;
      intros H; injection H as <-; reflexivity.
  - intros H; injection H as <-; reflexivity.
Qed.

End Fallback.

(** C1. Whatever the decoder and the client do (return, raise, return
    text that is not a JSON object) and whichever profile name is
    configured, [classify] returns a response and raises nothing. *)
Theorem classify_total (json_loads : string -> result pyvalue)
    (client : option (ChatRequest -> result ChatCompletion))
    (MODERATION_PROFILE text : string) :
  exists response : ModerationResponse,
    classify json_loads client MODERATION_PROFILES MODERATION_PROFILE text
    = Return response.
Proof.
  destruct (_classify_with_openai json_loads client MODERATION_PROFILES
              MODERATION_PROFILE text) as [r|e] eqn:Hcall.
  - exists r. now apply classify_success.
  - eexists. eapply classify_failure; [ exact Hcall | ].
    apply get_moderation_profile_builtin.
Qed.

(** C2. When the classifier call raises, [classify] answers from the
    permissive flag of the active profile: the permissive response when
    it is true, the blocking response when it is false. *)
Theorem classify_failure_by_flag (json_loads : string -> result pyvalue)
    (client : option (ChatRequest -> result ChatCompletion))
    (profiles : list (string * Profile)) (MODERATION_PROFILE text : string)
    (e : exn) (profile : Profile) (flag : bool) :
  _classify_with_openai json_loads client profiles MODERATION_PROFILE text = Raise e ->
  get_moderation_profile profiles MODERATION_PROFILE = Return profile ->
  permissive_mode profile = Some flag ->
  classify json_loads client profiles MODERATION_PROFILE text
  = Return (if flag
            then mkResponse (VBool true)
                   (VStr "Unable to evaluate - allowing due to permissive mode")
                   (VStr "error_permissive")
            else mkResponse (VBool false)
                   (VStr "Unable to evaluate message properly")
                   (VStr "error_blocking")).
Proof.
  intros Hraise Hprofile Hflag.
  rewrite (classify_failure _ _ _ _ _ _ _ Hraise Hprofile), Hflag.
  destruct flag; reflexivity.
Qed.

Lemma classify_failure_by_flag_witness :
  classify Json.loads timeout_client strict_profiles "strict" "See you at 5pm"
  = Return (mkResponse (VBool false) (VStr "Unable to evaluate message properly")
              (VStr "error_blocking"))
  /\ classify Json.loads timeout_client MODERATION_PROFILES "standard" "See you at 5pm"
     = Return (mkResponse (VBool true)
                 (VStr "Unable to evaluate - allowing due to permissive mode")
                 (VStr "error_permissive")).
Proof.
  split.
  - apply (classify_failure_by_flag Json.loads timeout_client strict_profiles
             "strict" "See you at 5pm"
             (mkExn RuntimeError "AI service connection failed")
             (mkProfile "Strict" "Blocks on failure" ["deflection"] (Some false)) false);
      reflexivity.
  - apply (classify_failure_by_flag Json.loads timeout_client MODERATION_PROFILES
             "standard" "See you at 5pm"
             (mkExn RuntimeError "AI service connection failed")
             standard_profile true);
      reflexivity.
Defined.

(** C10. When the classifier call raises and the active profile has no
    permissive_mode key, [classify] returns the permissive response. *)
Theorem classify_failure_flag_absent (json_loads : string -> result pyvalue)
    (client : option (ChatRequest -> result ChatCompletion))
    (profiles : list (string * Profile)) (MODERATION_PROFILE text : string)
    (e : exn) (profile : Profile) :
  _classify_with_openai json_loads client profiles MODERATION_PROFILE text = Raise e ->
  get_moderation_profile profiles MODERATION_PROFILE = Return profile ->
  permissive_mode profile = None ->
  classify json_loads client profiles MODERATION_PROFILE text
  = Return (mkResponse (VBool true)
              (VStr "Unable to evaluate - allowing due to permissive mode")
              (VStr "error_permissive")).
Proof.
  intros Hraise Hprofile Hflag.
  rewrite (classify_failure _ _ _ _ _ _ _ Hraise Hprofile), Hflag.
  reflexivity.
Qed.

Lemma classify_failure_flag_absent_witness :
  classify Json.loads None strict_profiles "unset" "See you at 5pm"
  = Return (mkResponse (VBool true)
              (VStr "Unable to evaluate - allowing due to permissive mode")
              (VStr "error_permissive")).
Proof.
  apply (classify_failure_flag_absent Json.loads None strict_profiles "unset"
           "See you at 5pm" (mkExn RuntimeError "OpenAI client not initialized")
           (mkProfile "Unset" "No permissive_mode key" [] None));
    reflexivity.
Defined.

(** ** Response parsing *)

Section Parsing.

Variable json_loads : string -> result pyvalue.

Lemma from_json_object (raw : string) (d : pydict) :
  json_loads raw = Return (VDict d) ->
  from_json json_loads raw
  = Return (mkResponse (dict_get d "allow" (VBool false))
              (dict_get d "reason" (VStr "No reason provided"))
              (dict_get d "category" (VStr ""))).
Proof. intros H. unfold from_json. rewrite H. reflexivity. Qed.

(** A reply that is not JSON gives the fixed blocking response. *)
Lemma from_json_decode_error (raw : string) (e : exn) :
  json_loads raw = Raise e ->
  exn_cls e = JSONDecodeError ->
  from_json json_loads raw = Return parsing_error_response.
Proof.
  intros H Hcls. unfold from_json. rewrite H. simpl.
  unfold isinstance. rewrite Hcls. reflexivity.
Qed.

(** A reply that is JSON but not an object makes [data.get] raise
    AttributeError, which the [except] clause does not list. *)
Lemma from_json_not_object (raw : string) (v : pyvalue) :
  json_loads raw = Return v ->
  (forall d, v <> VDict d) ->
  from_json json_loads raw
  = Raise (mkExn AttributeError ("'" ++ type_name v ++ "' object has no attribute 'get'")).
Proof.
  intros H Hv. unfold from_json. rewrite H.
  destruct v; try reflexivity. now destruct (Hv entries).
Qed.


End Parsing.

(** C4. When the reply decodes to a JSON object, [from_json] returns the
    response whose fields are the values of the keys allow, reason and
    category, or False, the text No reason provided and the empty string
    where a key is absent. *)
Theorem from_json_fields (json_loads : string -> result pyvalue) (raw : string)
    (d : pydict) :
  json_loads raw = Return (VDict d) ->
  from_json json_loads raw
  = Return {| allow := match dict_lookup d "allow" with
                       | Some v => v
                       | None => VBool false
                       end;
              reason := match dict_lookup d "reason" with
                        | Some v => v
                        | None => VStr "No reason provided"
                        end;
              category := match dict_lookup d "category" with
                          | Some v => v
                          | None => VStr ""
                          end |}.
Proof. intros H. now rewrite (from_json_object _ _ _ H). Qed.

Lemma from_json_fields_witness :
  from_json Json.loads (with_quotes "{`allow`: true, `reason`: `x`, `category`: `y`}")
  = Return (mkResponse (VBool true) (VStr "x") (VStr "y"))
  /\ from_json Json.loads "{}"
     = Return (mkResponse (VBool false) (VStr "No reason provided") (VStr "")).
Proof.
  split.
  - apply (from_json_fields Json.loads
             (with_quotes "{`allow`: true, `reason`: `x`, `category`: `y`}")
             [("allow", VBool true); ("reason", VStr "x"); ("category", VStr "y")]).
    reflexivity.
  - apply (from_json_fields Json.loads "{}" []). reflexivity.
Defined.

(** C3. On the reply [[]], which is valid JSON but not an object,
    [from_json] raises AttributeError instead of returning the parsing
    error response; inside [classify] the exception becomes a
    RuntimeError and the message is allowed, where text that is not JSON
    at all is blocked. *)
Theorem from_json_array_raises :
  Json.loads "[]" = Return (VList [])
  /\ from_json Json.loads "[]"
     = Raise (mkExn AttributeError "'list' object has no attribute 'get'")
  /\ classify Json.loads (Some (fun _ => Return (mkCompletion [Some "[]"])))
       MODERATION_PROFILES "standard" "See you at 5pm"
     = Return (mkResponse (VBool true)
                 (VStr "Unable to evaluate - allowing due to permissive mode")
                 (VStr "error_permissive"))
  /\ from_json Json.loads "not json"
     = Return (mkResponse (VBool false) (VStr "Message could not be properly evaluated")
                 (VStr "parsing_error")).
Proof. repeat split. Qed.

(** The scenario of the specification: the standard profile, a
    scheduling message and a reply that allows it. *)
Example classify_scheduling :
  classify Json.loads
    (Some (fun _ => Return (mkCompletion
       [Some (with_quotes "{`allow`: true, `reason`: `Legitimate scheduling discussion`, `category`: `scheduling`}")])))
    MODERATION_PROFILES "standard" "Can we move pickup to 5pm Friday?"
  = Return (mkResponse (VBool true) (VStr "Legitimate scheduling discussion")
              (VStr "scheduling")).
Proof. reflexivity. Qed.

(** ** The reason of a response *)







(** ** The warning message *)

(** Membership in a dict is membership in its list of keys. *)
Lemma dict_contains_keys {V : Type} (d : list (string * V)) (key : string) :
  dict_contains d key = existsb (String.eqb key) (map fst d).
Proof.
  unfold dict_contains. induction d as [|[k v] d IH]; simpl; [ reflexivity | ].
  rewrite (String.eqb_sym key k). destruct (String.eqb k key); [ reflexivity | exact IH ].
Qed.

(** C5. For a response whose reason and category are strings, the
    warning is the scope statement, a space and the reason itself,
    except that a generic reason (No reason provided, Message could not
    be properly evaluated) with one of the seven categories of the table
    is replaced by the explanation the table gives for the category.
    The allow field is not read. *)
Theorem _build_warning_message_text (builtin_str : pyvalue -> string)
    (a : pyvalue) (r c : string) :
  let generic :=
    String.eqb r "No reason provided"
    || String.eqb r "Message could not be properly evaluated" in
  let known :=
    existsb (String.eqb c)
      [ "performative"; "manipulation"; "narrative"; "grandstanding"; "off_topic";
        "emotional_pressure"; "deflection" ] in
  _build_warning_message builtin_str (mkResponse a (VStr r) (VStr c))
  = Return
      ("This group is for co-parenting logistics only (health, education, scheduling, logistics)."
       ++ " " ++ (if generic && known then dict_get category_messages c "" else r)).
Proof.
  intros generic known. subst generic known.
  change (existsb (String.eqb c) _)
    with (existsb (String.eqb c) (map fst category_messages)).
  rewrite <- dict_contains_keys.
  unfold _build_warning_message, in_strings, generic_reasons, in_dict, getitem,
    dict_contains, dict_getitem, dict_get, base_message.
  cbn [reason category existsb].
  generalize category_messages as table. intros table.
  rewrite orb_false_r.
  destruct (String.eqb r "No reason provided"
            || String.eqb r "Message could not be properly evaluated");
    destruct (dict_lookup table c); reflexivity.
Qed.

Example warning_generic_reason :
  _build_warning_message (fun _ => "")
    (mkResponse (VBool false) (VStr "No reason provided") (VStr "performative"))
  = Return "This group is for co-parenting logistics only (health, education, scheduling, logistics). Your message appeared to be performative posturing rather than actionable co-parenting communication.".
Proof. reflexivity. Qed.

Example warning_specific_reason :
  _build_warning_message (fun _ => "")
    (mkResponse (VBool false) (VStr "Specific AI reason") (VStr "off_topic"))
  = Return "This group is for co-parenting logistics only (health, education, scheduling, logistics). Specific AI reason".
Proof. reflexivity. Qed.

(** ** The system prompt *)

(** C6. The prompt is a function of the name and the behavior list of
    the profile alone: two profiles that agree on both get the same
    prompt, whatever their description and permissive flag. *)
Theorem system_prompt_name_behaviors (p1 p2 : Profile) :
  name p1 = name p2 ->
  behaviors p1 = behaviors p2 ->
  system_prompt p1 = system_prompt p2.
Proof.
  intros Hname Hbehaviors. unfold system_prompt.
  rewrite Hname, Hbehaviors. reflexivity.
Qed.

Lemma system_prompt_name_behaviors_witness :
  system_prompt (mkProfile "Strict" "Blocks on failure" ["deflection"] (Some false))
  = system_prompt (mkProfile "Strict" "Another description" ["deflection"] None).
Proof.
  apply (system_prompt_name_behaviors
           (mkProfile "Strict" "Blocks on failure" ["deflection"] (Some false))
           (mkProfile "Strict" "Another description" ["deflection"] None));
    reflexivity.
Defined.

(** [_build_system_prompt] is [system_prompt] at the active profile. *)
Lemma _build_system_prompt_eq (profiles : list (string * Profile)) (key : string)
    (profile : Profile) :
  get_moderation_profile profiles key = Return profile ->
  _build_system_prompt profiles key = Return (system_prompt profile).
Proof. intros H. unfold _build_system_prompt. rewrite H. reflexivity. Qed.

Lemma append_assoc (a b c : string) : (a ++ b) ++ c = a ++ (b ++ c).
Proof. induction a as [|x a IH]; simpl; [ reflexivity | now rewrite IH ]. Qed.

Lemma append_nil_r (a : string) : a ++ "" = a.
Proof. induction a as [|x a IH]; simpl; [ reflexivity | now rewrite IH ]. Qed.

Lemma occurs_here (t post : string) : occurs t (t ++ post).
Proof. exists "", post. reflexivity. Qed.

Lemma occurs_app_l (t s a : string) : occurs t s -> occurs t (a ++ s).
Proof.
  intros (pre & post & ->). exists (a ++ pre), post. now rewrite append_assoc.
Qed.

Lemma drop_prefix_app (t post : string) : drop_prefix t (t ++ post) = Some post.
Proof.
  induction t as [|x t IH]; simpl.
  - now destruct post.
  - now rewrite Ascii.eqb_refl.
Qed.

Lemma occursb_unfold (t s : string) :
  occursb t s
  = match drop_prefix t s with
    | Some _ => true
    | None => match s with String _ r => occursb t r | EmptyString => false end
    end.
Proof. destruct s; simpl; destruct (drop_prefix t _); reflexivity. Qed.

(** [occursb] finds every occurrence. *)
Lemma occursb_complete (t s : string) : occurs t s -> occursb t s = true.
Proof.
  intros (pre & post & ->). induction pre as [|x pre IH].
  - rewrite occursb_unfold. simpl. now rewrite drop_prefix_app.
  - rewrite occursb_unfold. simpl. rewrite IH. now destruct (drop_prefix t _).
Qed.

Lemma join_prefixed (x : string) (l : list string) :
  nl ++ join nl (x :: l) = prefixed_lines (x :: l).
Proof.
  revert x. induction l as [|y l IH]; intros x.
  - cbn [join prefixed_lines]. now rewrite append_nil_r.
  - change (join nl (x :: y :: l)) with (x ++ nl ++ join nl (y :: l)).
    rewrite IH. reflexivity.
Qed.

Lemma prefixed_lines_then_nl (l : list string) (rest : string) :
  exists t, prefixed_lines l ++ nl ++ rest = nl ++ t.
Proof.
  destruct l as [|x l]; simpl.
  - now exists rest.
  - now eexists.
Qed.

(** Each line of [prefixed_lines l], followed by a line break, is there
    between its two line breaks. *)
Lemma prefixed_lines_occurs (l : list string) (x rest : string) :
  In x l -> occurs (nl ++ x ++ nl) (prefixed_lines l ++ nl ++ rest).
Proof.
  induction l as [|y l IH]; intros Hin; [ contradiction | ].
  change (prefixed_lines (y :: l)) with (nl ++ y ++ prefixed_lines l).
  destruct Hin as [-> | Hin].
  - destruct (prefixed_lines_then_nl l rest) as [t Ht].
    rewrite !append_assoc, Ht.
    exists "", t. simpl. now rewrite !append_assoc.
  - rewrite !append_assoc. apply (occurs_app_l _ _ nl), (occurs_app_l _ _ y).
    now apply IH.
Qed.

Lemma closing_text_split : closing_text = closing_examples ++ bias_instruction.
Proof. reflexivity. Qed.

(** The prompt of a profile with behaviors, cut around the profile
    block. *)
Lemma system_prompt_with_behaviors (p : Profile) (x : string) (l : list string) :
  behaviors p = x :: l ->
  system_prompt p
  = (base_prompt_text ++ nl)
    ++ ("MODERATION PROFILE: " ++ name p ++ nl
        ++ "Watch specifically for these behavioral patterns:"
        ++ prefixed_lines (map (fun behavior => "- " ++ behavior) (behaviors p)) ++ nl)
    ++ (substring 1 (String.length profile_prompt_tail) profile_prompt_tail
        ++ closing_text).
Proof.
  intros H. unfold system_prompt. rewrite H.
  cbn [map]. rewrite <- join_prefixed.
  rewrite !append_assoc. reflexivity.
Qed.

(** C7. With a non-empty behavior list the prompt has the block that
    names the profile and lists the behaviors, each as a line of its
    own; every prompt ends with the instruction to allow when the intent
    is unclear or ambiguous; with an empty behavior list the prompt is
    the preamble followed by the closing text, without a profile
    block. *)
Theorem system_prompt_structure (p : Profile) :
  (behaviors p <> [] ->
   occurs ("MODERATION PROFILE: " ++ name p ++ nl
           ++ "Watch specifically for these behavioral patterns:"
           ++ prefixed_lines (map (fun behavior => "- " ++ behavior) (behaviors p)) ++ nl)
     (system_prompt p)
   /\ forall behavior, In behavior (behaviors p) ->
        occurs (nl ++ "- " ++ behavior ++ nl) (system_prompt p))
  /\ ends_with (system_prompt p)
       "Remember: When message intent is unclear or ambiguous, ALWAYS err on the side of allowing it."
  /\ (behaviors p = [] ->
      system_prompt p = base_prompt_text ++ closing_text
      /\ ~ occurs "MODERATION PROFILE" (system_prompt p)).
Proof.
  split; [ | split ].
  - intros Hne. destruct (behaviors p) as [|x l] eqn:Hb; [ contradiction | ].
    pose proof (system_prompt_with_behaviors p x l Hb) as Heq.
    rewrite Hb in Heq. rewrite Heq. split.
    + apply occurs_app_l, occurs_here.
    + intros behavior Hin. apply occurs_app_l.
      rewrite !append_assoc.
      do 4 match goal with
           | |- occurs _ (?a ++ _) => apply (occurs_app_l _ _ a)
           end.
      apply (prefixed_lines_occurs _ ("- " ++ behavior)).
      now apply in_map.
  - unfold system_prompt. rewrite closing_text_split.
    destruct (behaviors p).
    + exists (base_prompt_text ++ closing_examples). now rewrite append_assoc.
    + eexists. now rewrite <- append_assoc.
  - intros Hb. unfold system_prompt. rewrite Hb. split; [ reflexivity | ].
    intros Hocc. apply occursb_complete in Hocc.
    vm_compute in Hocc. discriminate.
Qed.

Lemma system_prompt_structure_witness :
  occurs (nl ++ "- making themselves appear as the victim or hero" ++ nl)
    (system_prompt (dict_get MODERATION_PROFILES "manipulative_coparent" standard_profile))
  /\ ~ occurs "MODERATION PROFILE" (system_prompt standard_profile).
Proof.
  split.
  - apply (proj1 (system_prompt_structure
                    (dict_get MODERATION_PROFILES "manipulative_coparent"
                       standard_profile))).
    + discriminate.
    + simpl. auto 10.
  - apply (proj2 (proj2 (system_prompt_structure standard_profile))).
    reflexivity.
Defined.

(** * Further properties of the code *)

(** ** [Config.validate] and the target user name *)

Lemma drop_prefix_sound (t s r : string) : drop_prefix t s = Some r -> s = t ++ r.
Proof.
  revert s. induction t as [|a t IH]; intros s; simpl.
  - now intros [= ->].
  - destruct s as [|b s]; [ discriminate | ].
    destruct (Ascii.eqb a b) eqn:Hab; [ | discriminate ].
    apply Ascii.eqb_eq in Hab as ->. intros H. now rewrite (IH _ H).
Qed.

(** [occursb] reports occurrences only. *)
Lemma occursb_sound (t s : string) : occursb t s = true -> occurs t s.
Proof.
  induction s as [|c s IH]; rewrite occursb_unfold.
  - destruct (drop_prefix t "") as [r|] eqn:Hp; [ | discriminate ].
    intros _. exists "", r. simpl. now apply drop_prefix_sound.
  - destruct (drop_prefix t (String c s)) as [r|] eqn:Hp.
    + intros _. exists "", r. simpl. now apply drop_prefix_sound.
    + intros H. apply (occurs_app_l _ _ (String c "")). now apply IH.
Qed.

Lemma occurs_iff_occursb (t s : string) : occurs t s <-> occursb t s = true.
Proof. split; [ apply occursb_complete | apply occursb_sound ]. Qed.

(** X1. [validate] accepts a configuration exactly when the bot token
    and the API key are not empty and the profile name is a key of the
    table. *)
Theorem validate_accepts_iff (profiles : list (string * Profile)) (cls : Config) :
  validate profiles cls = Return tt
  <-> BOT_TOKEN cls <> ""
      /\ OPENAI_API_KEY cls <> ""
      /\ dict_lookup profiles (MODERATION_PROFILE cls) <> None.
Proof.
  unfold validate, dict_contains.
  destruct (String.eqb_spec (BOT_TOKEN cls) "") as [Htoken|Htoken];
    destruct (String.eqb_spec (OPENAI_API_KEY cls) "") as [Hkey|Hkey];
    destruct (dict_lookup profiles (MODERATION_PROFILE cls)) as [p|];
    cbn [negb app];
    split; try discriminate; try tauto; try (intros _; repeat split; congruence).
Qed.

Lemma validate_accepts_iff_witness :
  validate MODERATION_PROFILES
    (mkConfig "123:token" "sk-key" "@parent" "manipulative_coparent" "INFO")
  = Return tt.
Proof.
  apply (proj2 (validate_accepts_iff MODERATION_PROFILES
                  (mkConfig "123:token" "sk-key" "@parent" "manipulative_coparent"
                     "INFO"))).
  repeat split; discriminate.
Defined.

(** X2. When [validate] rejects a configuration against the table of
    [config.py], it raises a ValueError whose text names BOT_TOKEN
    exactly when the token is empty, OPENAI_API_KEY exactly when the key
    is empty, and MODERATION_PROFILE exactly when the profile name is
    not a key of the table. *)
Theorem validate_names_what_is_missing (cls : Config) (e : exn) :
  validate MODERATION_PROFILES cls = Raise e ->
  exn_cls e = ValueError
  /\ (occurs "BOT_TOKEN" (exn_str e) <-> BOT_TOKEN cls = "")
  /\ (occurs "OPENAI_API_KEY" (exn_str e) <-> OPENAI_API_KEY cls = "")
  /\ (occurs "MODERATION_PROFILE" (exn_str e)
      <-> dict_lookup MODERATION_PROFILES (MODERATION_PROFILE cls) = None).
Proof.
  unfold validate, dict_contains.
  destruct (String.eqb_spec (BOT_TOKEN cls) "") as [Htoken|Htoken];
    destruct (String.eqb_spec (OPENAI_API_KEY cls) "") as [Hkey|Hkey];
    destruct (dict_lookup MODERATION_PROFILES (MODERATION_PROFILE cls)) as [p|];
    cbn [negb app];
    try discriminate;
    intros [= <-]; (split; [ reflexivity | ]);
    rewrite !occurs_iff_occursb; cbn [exn_str];
    repeat split; intros H; try assumption; try reflexivity;
    try (vm_compute in H; discriminate); try contradiction; try discriminate.
Qed.

Lemma validate_names_what_is_missing_witness :
  occurs "OPENAI_API_KEY"
    "Missing or invalid configuration: OPENAI_API_KEY, MODERATION_PROFILE (valid options: manipulative_coparent, standard)
Please check your .env file or environment variables."
  <-> OPENAI_API_KEY (mkConfig "123:token" "" "@parent" "gentle" "INFO") = "".
Proof.
  apply (validate_names_what_is_missing
           (mkConfig "123:token" "" "@parent" "gentle" "INFO")
           (mkExn ValueError
              "Missing or invalid configuration: OPENAI_API_KEY, MODERATION_PROFILE (valid options: manipulative_coparent, standard)
Please check your .env file or environment variables.")).
  reflexivity.
Defined.

(** X3. Once [validate] has accepted the configuration, and the table
    has its standard entry, [get_moderation_profile] returns the profile
    stored under the configured name: the fallback to standard is not
    taken. *)
Theorem validate_then_profile (profiles : list (string * Profile)) (cls : Config)
    (std : Profile) :
  validate profiles cls = Return tt ->
  dict_lookup profiles "standard" = Some std ->
  exists profile,
    dict_lookup profiles (MODERATION_PROFILE cls) = Some profile
    /\ get_moderation_profile profiles (MODERATION_PROFILE cls) = Return profile.
Proof.
  intros Hvalid Hstd. apply validate_accepts_iff in Hvalid as (_ & _ & Hprofile).
  destruct (dict_lookup profiles (MODERATION_PROFILE cls)) as [p|] eqn:Hp;
    [ | contradiction ].
  exists p. split; [ reflexivity | ].
  rewrite (get_moderation_profile_ok _ _ _ Hstd). unfold dict_get. now rewrite Hp.
Qed.

Lemma validate_then_profile_witness :
  exists profile,
    dict_lookup MODERATION_PROFILES "manipulative_coparent" = Some profile
    /\ get_moderation_profile MODERATION_PROFILES "manipulative_coparent" = Return profile.
Proof.
  apply (validate_then_profile MODERATION_PROFILES
           (mkConfig "123:token" "sk-key" "@parent" "manipulative_coparent" "INFO")
           standard_profile);
    reflexivity.
Defined.

Lemma lstrip_char_head (c : ascii) (s r : string) : lstrip_char c s <> String c r.
Proof.
  induction s as [|a s IH]; simpl; [ discriminate | ].
  destruct (Ascii.eqb a c) eqn:Hac; [ exact IH | ].
  intros [= -> _]. now rewrite Ascii.eqb_refl in Hac.
Qed.

(** X4. The normalized target user name never begins with an at sign,
    however many the configured name has. *)
Theorem target_username_no_at (cls : Config) (rest : string) :
  get_target_username_normalized cls <> String "@"%char rest.
Proof. apply lstrip_char_head. Qed.

(** ** [ModerationResponse]: [to_dict] and [from_json] *)

(** X5. [from_json] inverts [to_dict]: a text that decodes to the dict
    [to_dict] makes of a response parses back to that response, with
    every field unchanged whatever its value. *)
Theorem from_json_to_dict (json_loads : string -> result pyvalue) (raw : string)
    (response : ModerationResponse) :
  json_loads raw = Return (VDict (to_dict response)) ->
  from_json json_loads raw = Return response.
Proof.
  intros H. rewrite (from_json_object _ _ _ H). now destruct response.
Qed.

Lemma from_json_to_dict_witness :
  from_json Json.loads
    (with_quotes "{`allow`: false, `reason`: `Test message for validation`, `category`: `test`}")
  = Return (mkResponse (VBool false) (VStr "Test message for validation") (VStr "test")).
Proof.
  apply (from_json_to_dict Json.loads
           (with_quotes "{`allow`: false, `reason`: `Test message for validation`, `category`: `test`}")
           (mkResponse (VBool false) (VStr "Test message for validation") (VStr "test"))).
  reflexivity.
Defined.

(** X6. [from_json] raises in two cases only: the decoder raised an
    exception that is neither a JSONDecodeError nor a KeyError, which
    goes through unchanged; or the text decoded to a value that is not a
    dict, and the exception is the AttributeError of [data.get]. *)
Theorem from_json_raises_iff (json_loads : string -> result pyvalue) (raw : string)
    (e : exn) :
  from_json json_loads raw = Raise e
  <-> (json_loads raw = Raise e
       /\ exn_cls e <> JSONDecodeError /\ exn_cls e <> KeyError)
      \/ (exists v,
             json_loads raw = Return v
             /\ (forall d, v <> VDict d)
             /\ e = mkExn AttributeError
                      ("'" ++ type_name v ++ "' object has no attribute 'get'")).
Proof.
  unfold from_json. destruct (json_loads raw) as [v|e0]; cbn [bind try_catch].
  - split.
    + intros H. right. exists v.
      destruct v; cbn in H; try discriminate;
        (split; [ reflexivity | split; [ discriminate | now injection H as <- ] ]).
    + intros [(H & _) | (v' & [= <-] & Hv & ->)]; [ discriminate | ].
      destruct v; try reflexivity. now destruct (Hv entries).
  - cbn [dispatch existsb]. unfold isinstance.
    split.
    + destruct e0 as [[] msg]; cbn; intros H; try discriminate;
        injection H as <-; left; repeat split; discriminate.
    + intros [(H & Hjson & Hkey) | (v & H & _)]; [ | discriminate ].
      injection H as ->.
      destruct e as [[] msg]; cbn in *; try reflexivity; contradiction.
Qed.

Lemma from_json_raises_iff_witness :
  from_json Json.loads "null"
  = Raise (mkExn AttributeError "'NoneType' object has no attribute 'get'").
Proof.
  apply (proj2 (from_json_raises_iff Json.loads "null"
                  (mkExn AttributeError "'NoneType' object has no attribute 'get'"))).
  right. exists VNone. repeat split. discriminate.
Defined.

(** ** The errors of [_classify_with_openai] *)

(** The texts [_classify_with_openai] raises with. *)
Lemma _classify_with_openai_messages (json_loads : string -> result pyvalue)
    (client : option (ChatRequest -> result ChatCompletion))
    (profiles : list (string * Profile)) (key text : string) (e : exn) :
  _classify_with_openai json_loads client profiles key text = Raise e ->
  exn_str e = "OpenAI client not initialized"
  \/ exn_str e = "AI service temporarily unavailable (rate limit)"
  \/ exn_str e = "AI service connection failed"
  \/ exists detail, exn_str e = "AI service error: " ++ detail.
Proof.
  unfold _classify_with_openai. destruct client as [create|].
  - match goal with |- try_catch ?body _ = _ -> _ => destruct body as [r|e0] end;
      [ discriminate | ].
    destruct e0 as [[] msg]; cbn; intros [= <-]; cbn; eauto 6.
  - intros [= <-]. now left.
Qed.

(** What the clauses of [_classify_with_openai] make of an exception of
    the body. *)
Lemma dispatch_reported (e0 : exn) :
  dispatch
    [ Except [RateLimitError] (fun _ =>
        Raise (mkExn RuntimeError "AI service temporarily unavailable (rate limit)"));
      Except [APIConnectionError] (fun _ =>
        Raise (mkExn RuntimeError "AI service connection failed"));
      Except [APITimeoutError] (fun _ =>
        Raise (mkExn RuntimeError "AI service timeout"));
      ExceptException (fun e =>
        Raise (mkExn RuntimeError ("AI service error: " ++ exn_str e))) ] e0
  = @Raise ModerationResponse (mkExn RuntimeError (reported_text e0)).
Proof. destruct e0 as [[] msg]; reflexivity. Qed.

(** X7. Whatever goes wrong inside [_classify_with_openai], the caller
    sees a RuntimeError.  Without a client its text is OpenAI client not
    initialized.  With a client, the text is made from the first
    exception of the body, which is that of the profile lookup, else
    that of the API call, else the IndexError of an empty list of
    choices or the AttributeError of a first choice without text, else
    that of [from_json] on the stripped text: a fixed text for a rate
    limit and for a connection error, and otherwise AI service error
    followed by the text of that exception. *)
Theorem classifier_error_is_uniform (json_loads : string -> result pyvalue)
    (client : option (ChatRequest -> result ChatCompletion))
    (profiles : list (string * Profile)) (key text : string) (e : exn) :
  _classify_with_openai json_loads client profiles key text = Raise e ->
  exn_cls e = RuntimeError
  /\ ((client = None /\ exn_str e = "OpenAI client not initialized")
      \/ exists create e0,
           client = Some create
           /\ exn_str e
              = match exn_cls e0 with
                | RateLimitError => "AI service temporarily unavailable (rate limit)"
                | APIConnectionError | APITimeoutError => "AI service connection failed"
                | _ => "AI service error: " ++ exn_str e0
                end
           /\ (get_moderation_profile profiles key = Raise e0
               \/ exists profile,
                    get_moderation_profile profiles key = Return profile
                    /\ (create (chat_request (system_prompt profile) text) = Raise e0
                        \/ exists completion,
                             create (chat_request (system_prompt profile) text)
                             = Return completion
                             /\ ((choices completion = []
                                  /\ e0 = mkExn IndexError "list index out of range")
                                 \/ ((exists rest, choices completion = None :: rest)
                                     /\ e0 = mkExn AttributeError
                                               "'NoneType' object has no attribute 'strip'")
                                 \/ exists content rest,
                                      choices completion = Some content :: rest
                                      /\ from_json json_loads (strip content)
                                         = Raise e0)))).
Proof.
  intros H. split; [ exact (_classify_with_openai_raises _ _ _ _ _ _ H) | ].
  revert H. unfold _classify_with_openai, _build_system_prompt.
  destruct client as [create|]; [ | intros [= <-]; now left ].
  intros H. right. exists create.
  destruct (get_moderation_profile profiles key) as [profile|e0] eqn:Hprofile;
    cbn [bind try_catch] in H.
  2: { rewrite dispatch_reported in H. injection H as <-. exists e0.
       split; [ reflexivity | split; [ reflexivity | now left ] ]. }
  destruct (create (chat_request (system_prompt profile) text)) as [completion|e0]
    eqn:Hcall; cbn [bind try_catch] in H.
  2: { rewrite dispatch_reported in H. injection H as <-. exists e0.
       split; [ reflexivity | split; [ reflexivity | ] ].
       right. exists profile. auto. }
  destruct (choices completion) as [|[content|] rest] eqn:Hchoices;
    cbn [first_item py_strip bind try_catch] in H.
  - rewrite dispatch_reported in H. injection H as <-.
    exists (mkExn IndexError "list index out of range").
    split; [ reflexivity | split; [ reflexivity | ] ].
    right. exists profile. split; [ reflexivity | ].
    right. exists completion. auto.
  - destruct (from_json json_loads (strip content)) as [r|e0] eqn:Hparse;
      cbn [try_catch] in H; [ discriminate | ].
    rewrite dispatch_reported in H. injection H as <-. exists e0.
    split; [ reflexivity | split; [ reflexivity | ] ].
    right. exists profile. split; [ reflexivity | ].
    right. exists completion. split; [ exact Hcall | ].
    right. right. exists content, rest. auto.
  - rewrite dispatch_reported in H. injection H as <-.
    exists (mkExn AttributeError "'NoneType' object has no attribute 'strip'").
    split; [ reflexivity | split; [ reflexivity | ] ].
    right. exists profile. split; [ reflexivity | ].
    right. exists completion. split; [ exact Hcall | ].
    right. left. split; [ now exists rest | reflexivity ].
Qed.

Lemma classifier_error_is_uniform_witness :
  exn_cls (mkExn RuntimeError "AI service error: 'standard'") = RuntimeError.
Proof.
  apply (classifier_error_is_uniform Json.loads
           (Some (fun _ => Return (mkCompletion [Some "{}"])))
           [("strict", mkProfile "Strict" "Blocks on failure" ["deflection"] (Some false))]
           "strict" "See you at 5pm").
  reflexivity.
Defined.

(** X8. A timeout of the API call (APITimeoutError, a subclass of
    APIConnectionError) is caught by the clause for connection errors:
    the caller is told that the connection failed, and no input makes
    [_classify_with_openai] raise with the text AI service timeout. *)
Theorem timeout_reported_as_connection_failure (json_loads : string -> result pyvalue)
    (create : ChatRequest -> result ChatCompletion)
    (profiles : list (string * Profile)) (key text : string) (profile : Profile)
    (e0 : exn) :
  get_moderation_profile profiles key = Return profile ->
  create (chat_request (system_prompt profile) text) = Raise e0 ->
  exn_cls e0 = APITimeoutError ->
  _classify_with_openai json_loads (Some create) profiles key text
  = Raise (mkExn RuntimeError "AI service connection failed")
  /\ forall client' key' text' e,
       _classify_with_openai json_loads client' profiles key' text' = Raise e ->
       exn_str e <> "AI service timeout".
Proof.
  intros Hprofile Hcall Hcls. split.
  - unfold _classify_with_openai, _build_system_prompt.
    rewrite Hprofile. cbn [bind]. rewrite Hcall. cbn.
    unfold isinstance. rewrite Hcls. reflexivity.
  - intros client' key' text' e H.
    destruct (_classify_with_openai_messages _ _ _ _ _ _ H)
      as [-> | [-> | [-> | [detail ->]]]]; discriminate.
Qed.

Lemma timeout_reported_as_connection_failure_witness :
  _classify_with_openai Json.loads timeout_client MODERATION_PROFILES "standard"
    "See you at 5pm"
  = Raise (mkExn RuntimeError "AI service connection failed").
Proof.
  apply (timeout_reported_as_connection_failure Json.loads
           (fun _ => Raise (mkExn APITimeoutError "Request timed out."))
           MODERATION_PROFILES "standard" "See you at 5pm" standard_profile
           (mkExn APITimeoutError "Request timed out."));
    reflexivity.
Defined.

(** ** [classify] and the reply of the classifier *)

Section Reply.

Variable json_loads : string -> result pyvalue.
Variable create : ChatRequest -> result ChatCompletion.
Variable profiles : list (string * Profile).
Variable key text : string.
Variable profile : Profile.
Variable completion : ChatCompletion.

Hypothesis Hprofile : get_moderation_profile profiles key = Return profile.
Hypothesis Hcall : create (chat_request (system_prompt profile) text) = Return completion.

Lemma classify_fallback (e : exn) :
  _classify_with_openai json_loads (Some create) profiles key text = Raise e ->
  classify json_loads (Some create) profiles key text
  = Return (fallback_response profile).
Proof. intros H. exact (classify_failure _ _ _ _ _ _ _ H Hprofile). Qed.

(** With the profile resolved and the API call answered, what is left of
    [_classify_with_openai] is the reading of the completion. *)
Lemma _classify_with_openai_completion :
  _classify_with_openai json_loads (Some create) profiles key text
  = try_catch
      (choice <- first_item (choices completion) ;;
       result <- py_strip choice ;;
       from_json json_loads result)
      [ Except [RateLimitError] (fun _ =>
          Raise (mkExn RuntimeError "AI service temporarily unavailable (rate limit)"));
        Except [APIConnectionError] (fun _ =>
          Raise (mkExn RuntimeError "AI service connection failed"));
        Except [APITimeoutError] (fun _ =>
          Raise (mkExn RuntimeError "AI service timeout"));
        ExceptException (fun e =>
          Raise (mkExn RuntimeError ("AI service error: " ++ exn_str e))) ].
Proof.
  unfold _classify_with_openai, _build_system_prompt.
  rewrite Hprofile. cbn [bind]. rewrite Hcall. reflexivity.
Qed.

(** Every handler of [_classify_with_openai] raises. *)
Lemma completion_handlers_raise (e0 : exn) :
  exists e,
    dispatch
      [ Except [RateLimitError] (fun _ =>
          Raise (mkExn RuntimeError "AI service temporarily unavailable (rate limit)"));
        Except [APIConnectionError] (fun _ =>
          Raise (mkExn RuntimeError "AI service connection failed"));
        Except [APITimeoutError] (fun _ =>
          Raise (mkExn RuntimeError "AI service timeout"));
        ExceptException (fun e =>
          Raise (mkExn RuntimeError ("AI service error: " ++ exn_str e))) ] e0
    = @Raise ModerationResponse e.
Proof.
  cbn [dispatch].
  repeat match goal with
         | |- context [if ?c then _ else _] => destruct c
         end; eauto.
Qed.

Lemma classify_reply (content : string) (rest : list (option string)) :
  choices completion = Some content :: rest ->
  classify json_loads (Some create) profiles key text
  = match from_json json_loads (strip content) with
    | Return response => Return response
    | Raise _ => Return (fallback_response profile)
    end.
Proof.
  intros Hchoices.
  pose proof _classify_with_openai_completion as Heq.
  rewrite Hchoices in Heq. cbn [first_item py_strip bind] in Heq.
  destruct (from_json json_loads (strip content)) as [r|e0] eqn:Hparse.
  - apply classify_success. exact Heq.
  - destruct (completion_handlers_raise e0) as [e He].
    apply (classify_fallback e). rewrite Heq. exact He.
Qed.

End Reply.

(** X9. A completion without choices, or whose first choice carries no
    text, is handled like a failed call: [classify] returns the error
    response that the permissive flag of the active profile selects. *)
Theorem classify_empty_completion (json_loads : string -> result pyvalue)
    (create : ChatRequest -> result ChatCompletion)
    (profiles : list (string * Profile)) (key text : string) (profile : Profile)
    (completion : ChatCompletion) :
  get_moderation_profile profiles key = Return profile ->
  create (chat_request (system_prompt profile) text) = Return completion ->
  choices completion = [] \/ (exists rest, choices completion = None :: rest) ->
  classify json_loads (Some create) profiles key text
  = Return (fallback_response profile).
Proof.
  intros Hprofile Hcall Hchoices.
  assert (exists e0,
             (choice <- first_item (choices completion) ;;
              result <- py_strip choice ;;
              from_json json_loads result) = Raise e0) as [e0 He0].
  { destruct Hchoices as [-> | [rest ->]]; eexists; reflexivity. }
  destruct (completion_handlers_raise e0) as [e He].
  apply (classify_fallback _ _ _ _ _ _ Hprofile e).
  rewrite (_classify_with_openai_completion _ _ _ _ _ _ _ Hprofile Hcall), He0.
  exact He.
Qed.

Lemma classify_empty_completion_witness :
  classify Json.loads (Some (fun _ => Return (mkCompletion []))) strict_profiles
    "strict" "See you at 5pm"
  = Return error_blocking_response.
Proof.
  apply (classify_empty_completion Json.loads (fun _ => Return (mkCompletion []))
           strict_profiles "strict" "See you at 5pm"
           (mkProfile "Strict" "Blocks on failure" ["deflection"] (Some false))
           (mkCompletion []));
    [ reflexivity | reflexivity | now left ].
Defined.

(** X10. A reply that is valid JSON but not an object (a list, a
    number, a string, null) is handled like a failed call: under a
    permissive profile the message is allowed, and only a profile whose
    flag is False blocks it. *)
Theorem classify_reply_not_object (json_loads : string -> result pyvalue)
    (create : ChatRequest -> result ChatCompletion)
    (profiles : list (string * Profile)) (key text : string) (profile : Profile)
    (completion : ChatCompletion) (content : string) (rest : list (option string))
    (v : pyvalue) :
  get_moderation_profile profiles key = Return profile ->
  create (chat_request (system_prompt profile) text) = Return completion ->
  choices completion = Some content :: rest ->
  json_loads (strip content) = Return v ->
  (forall d, v <> VDict d) ->
  classify json_loads (Some create) profiles key text
  = Return (fallback_response profile).
Proof.
  intros Hprofile Hcall Hchoices Hloads Hv.
  rewrite (classify_reply _ _ _ _ _ _ _ Hprofile Hcall _ _ Hchoices).
  now rewrite (from_json_not_object _ _ _ Hloads Hv).
Qed.

Lemma classify_reply_not_object_witness :
  classify Json.loads (Some (fun _ => Return (mkCompletion [Some " 42 "])))
    MODERATION_PROFILES "manipulative_coparent" "Nice try"
  = Return error_permissive_response.
Proof.
  apply (classify_reply_not_object Json.loads
           (fun _ => Return (mkCompletion [Some " 42 "])) MODERATION_PROFILES
           "manipulative_coparent" "Nice try"
           (dict_get MODERATION_PROFILES "manipulative_coparent" standard_profile)
           (mkCompletion [Some " 42 "]) " 42 " [] (VInt 42));
    try reflexivity.
  discriminate.
Defined.

(** X11. A reply that is not JSON is blocked with the parsing error
    response whatever the permissive flag of the profile: the flag
    decides only when the call itself fails. *)
Theorem classify_reply_not_json (json_loads : string -> result pyvalue)
    (create : ChatRequest -> result ChatCompletion)
    (profiles : list (string * Profile)) (key text : string) (profile : Profile)
    (completion : ChatCompletion) (content : string) (rest : list (option string))
    (e : exn) :
  get_moderation_profile profiles key = Return profile ->
  create (chat_request (system_prompt profile) text) = Return completion ->
  choices completion = Some content :: rest ->
  json_loads (strip content) = Raise e ->
  exn_cls e = JSONDecodeError ->
  classify json_loads (Some create) profiles key text
  = Return (mkResponse (VBool false) (VStr "Message could not be properly evaluated")
              (VStr "parsing_error")).
Proof.
  intros Hprofile Hcall Hchoices Hloads Hcls.
  rewrite (classify_reply _ _ _ _ _ _ _ Hprofile Hcall _ _ Hchoices).
  now rewrite (from_json_decode_error _ _ _ Hloads Hcls).
Qed.

Lemma classify_reply_not_json_witness :
  classify Json.loads
    (Some (fun _ => Return (mkCompletion [Some "I think this message is fine."])))
    MODERATION_PROFILES "standard" "See you at 5pm"
  = Return (mkResponse (VBool false) (VStr "Message could not be properly evaluated")
              (VStr "parsing_error")).
Proof.
  apply (classify_reply_not_json Json.loads
           (fun _ => Return (mkCompletion [Some "I think this message is fine."]))
           MODERATION_PROFILES "standard" "See you at 5pm" standard_profile
           (mkCompletion [Some "I think this message is fine."])
           "I think this message is fine." []
           (mkExn JSONDecodeError "Expecting value"));
    reflexivity.
Defined.

(** X12. When the text of the first choice, stripped of surrounding
    whitespace, decodes to an object, [classify] returns the response
    read from that object; the other choices are not looked at. *)
Theorem classify_reply_object (json_loads : string -> result pyvalue)
    (create : ChatRequest -> result ChatCompletion)
    (profiles : list (string * Profile)) (key text : string) (profile : Profile)
    (completion : ChatCompletion) (content : string) (rest : list (option string))
    (d : pydict) :
  get_moderation_profile profiles key = Return profile ->
  create (chat_request (system_prompt profile) text) = Return completion ->
  choices completion = Some content :: rest ->
  json_loads (strip content) = Return (VDict d) ->
  classify json_loads (Some create) profiles key text
  = Return (response_of_object d).
Proof.
  intros Hprofile Hcall Hchoices Hloads.
  rewrite (classify_reply _ _ _ _ _ _ _ Hprofile Hcall _ _ Hchoices).
  now rewrite (from_json_object _ _ _ Hloads).
Qed.

Lemma classify_reply_object_witness :
  classify Json.loads
    (Some (fun _ => Return (mkCompletion
       [ Some (nl ++ with_quotes "{`allow`: false, `category`: `off_topic`}" ++ nl);
         Some "[]" ])))
    MODERATION_PROFILES "standard" "Did you watch the game?"
  = Return (mkResponse (VBool false) (VStr "No reason provided") (VStr "off_topic")).
Proof.
  apply (classify_reply_object Json.loads
           (fun _ => Return (mkCompletion
              [ Some (nl ++ with_quotes "{`allow`: false, `category`: `off_topic`}" ++ nl);
                Some "[]" ]))
           MODERATION_PROFILES "standard" "Did you watch the game?" standard_profile
           (mkCompletion
              [ Some (nl ++ with_quotes "{`allow`: false, `category`: `off_topic`}" ++ nl);
                Some "[]" ])
           (nl ++ with_quotes "{`allow`: false, `category`: `off_topic`}" ++ nl)
           [Some "[]"]
           [("allow", VBool false); ("category", VStr "off_topic")]);
    reflexivity.
Defined.

(** X13. With the profiles of [config.py], whichever profile name is
    configured (known or not), a failure of the classifier call never
    blocks a message: [classify] returns the permissive response. *)
Theorem builtin_profiles_fail_open (json_loads : string -> result pyvalue)
    (client : option (ChatRequest -> result ChatCompletion)) (key text : string)
    (e : exn) :
  _classify_with_openai json_loads client MODERATION_PROFILES key text = Raise e ->
  classify json_loads client MODERATION_PROFILES key text
  = Return (mkResponse (VBool true)
              (VStr "Unable to evaluate - allowing due to permissive mode")
              (VStr "error_permissive")).
Proof.
  intros H.
  rewrite (classify_failure _ _ _ _ _ _ _ H (get_moderation_profile_builtin key)).
  unfold dict_get. cbn [dict_lookup MODERATION_PROFILES].
  repeat match goal with
         | |- context [if ?c then _ else _] => destruct c
         end; reflexivity.
Qed.

Lemma builtin_profiles_fail_open_witness :
  classify Json.loads None MODERATION_PROFILES "no_such_profile" "See you at 5pm"
  = Return (mkResponse (VBool true)
              (VStr "Unable to evaluate - allowing due to permissive mode")
              (VStr "error_permissive")).
Proof.
  apply (builtin_profiles_fail_open Json.loads None "no_such_profile" "See you at 5pm"
           (mkExn RuntimeError "OpenAI client not initialized")).
  reflexivity.
Defined.

Lemma _classify_with_openai_without_profile (json_loads : string -> result pyvalue)
    (client : option (ChatRequest -> result ChatCompletion))
    (profiles : list (string * Profile)) (key text : string) (e0 : exn) :
  get_moderation_profile profiles key = Raise e0 ->
  exists e, _classify_with_openai json_loads client profiles key text = Raise e.
Proof.
  intros H. unfold _classify_with_openai, _build_system_prompt.
  destruct client as [create|]; [ | eauto ].
  rewrite H. cbn [bind try_catch]. apply completion_handlers_raise.
Qed.

(** X14. [classify] depends on the standard entry of the table: with it
    every call returns a response, and without it every call raises the
    KeyError of the profile lookup, whatever the client and the
    configured name, even a name that is in the table. *)
Theorem classify_needs_standard (json_loads : string -> result pyvalue)
    (client : option (ChatRequest -> result ChatCompletion))
    (profiles : list (string * Profile)) (key text : string) :
  (dict_lookup profiles "standard" <> None ->
   exists response, classify json_loads client profiles key text = Return response)
  /\ (dict_lookup profiles "standard" = None ->
      classify json_loads client profiles key text
      = Raise (mkExn KeyError "'standard'")).
Proof.
  split.
  - destruct (dict_lookup profiles "standard") as [std|] eqn:Hstd; [ | contradiction ].
    intros _.
    destruct (_classify_with_openai json_loads client profiles key text) as [r|e]
      eqn:Hcall.
    + exists r. now apply classify_success.
    + pose proof (get_moderation_profile_ok _ key _ Hstd) as Hprofile.
      eexists. exact (classify_failure _ _ _ _ _ _ _ Hcall Hprofile).
  - intros Hstd.
    assert (get_moderation_profile profiles key = Raise (mkExn KeyError "'standard'"))
      as Hprofile.
    { unfold get_moderation_profile, dict_getitem. now rewrite Hstd. }
    destruct (_classify_with_openai_without_profile json_loads client _ _ text _
                Hprofile) as [e He].
    unfold classify. rewrite He. cbn [try_catch dispatch]. now rewrite Hprofile.
Qed.

Lemma classify_needs_standard_witness :
  classify Json.loads
    (Some (fun _ => Return (mkCompletion [Some (with_quotes "{`allow`: true}")])))
    [("strict", mkProfile "Strict" "Blocks on failure" ["deflection"] (Some false))]
    "strict" "See you at 5pm"
  = Raise (mkExn KeyError "'standard'").
Proof.
  apply (proj2 (classify_needs_standard Json.loads
                  (Some (fun _ => Return (mkCompletion
                     [Some (with_quotes "{`allow`: true}")])))
                  [("strict",
                    mkProfile "Strict" "Blocks on failure" ["deflection"] (Some false))]
                  "strict" "See you at 5pm")).
  reflexivity.
Defined.

(** ** The outcome of [_build_warning_message] *)

(** X15. [_build_warning_message] raises only for a generic reason
    together with a category that is a list or a dict, which cannot be
    looked up in the table (TypeError).  In every other case it returns
    a text that begins with the scope statement and a space; and a
    reason that is not generic is shown as it is, whatever the category
    (it is not consulted, even when unhashable). *)
Theorem warning_outcome (builtin_str : pyvalue -> string)
    (moderation_result : ModerationResponse) :
  if in_strings (reason moderation_result) generic_reasons
     && unhashable (category moderation_result)
  then _build_warning_message builtin_str moderation_result
       = Raise (mkExn TypeError
                  ("unhashable type: '" ++ type_name (category moderation_result) ++ "'"))
  else exists detail,
      _build_warning_message builtin_str moderation_result
      = Return ("This group is for co-parenting logistics only (health, education, scheduling, logistics)."
                ++ " " ++ detail)
      /\ (in_strings (reason moderation_result) generic_reasons = false ->
          detail = format_value builtin_str (reason moderation_result)).
Proof.
  destruct moderation_result as [a r c].
  unfold _build_warning_message. cbn [reason category].
  destruct (in_strings r generic_reasons); cbn [andb].
  - destruct c; cbn [unhashable in_dict getitem bind]; try reflexivity;
      try (eexists; split; [ reflexivity | discriminate ]).
    unfold dict_contains, dict_getitem.
    destruct (dict_lookup category_messages s); cbn [bind];
      eexists; (split; [ reflexivity | discriminate ]).
  - cbn [bind]. eexists. split; reflexivity.
Qed.

(** ** [handle_message] *)

(** What [_delete_message_and_warn] does: the deletion is attempted
    first; the warning is sent only after the deletion succeeded and the
    warning text was built; nothing is raised. *)
Lemma _delete_message_and_warn_calls (bot : Bot) (builtin_str : pyvalue -> string)
    (msg : Message) (moderation_result : ModerationResponse) :
  _delete_message_and_warn bot builtin_str msg moderation_result
  = (delete_message (chat_id msg) (message_id msg)
       :: match on_delete_message bot (chat_id msg) (message_id msg),
                _build_warning_message builtin_str moderation_result with
          | Return _, Return warning_text => [send_message (chat_id msg) warning_text]
          | _, _ => []
          end,
     Return tt).
Proof.
  unfold _delete_message_and_warn, await, pure_step, io_ret.
  destruct (on_delete_message bot (chat_id msg) (message_id msg)) as [[]|e1];
    cbn [io_bind io_try app]; [ | reflexivity ].
  destruct (_build_warning_message builtin_str moderation_result) as [w|e2];
    cbn [io_bind io_try app]; [ | reflexivity ].
  destruct (on_send_message bot (chat_id msg) w) as [sent|e3]; reflexivity.
Qed.

Section Monitored.

Variable json_loads : string -> result pyvalue.
Variable client : option (ChatRequest -> result ChatCompletion).
Variable profiles : list (string * Profile).
Variable config : Config.
Variable bot : Bot.
Variable str_lower : string -> string.
Variable builtin_str : pyvalue -> string.
Variable float_truth : string -> bool.

Variable update : Update.
Variable msg : Message.
Variable user : User.
Variable sender body : string.

(** The update carries a text message of the watched user. *)
Hypothesis Hmessage : message update = Some msg.
Hypothesis Htext : text msg = Some body.
Hypothesis Huser : from_user msg = Some user.
Hypothesis Hname : username user = Some sender.
Hypothesis Hsender : sender <> "".
Hypothesis Hmatch :
  str_lower sender = str_lower (get_target_username_normalized config).
Hypothesis Hbody : strip body <> "".


End Monitored.

(** X16. Whatever the update, the classifier, the profile table and the
    bot do, [handle_message] raises nothing, and the calls it makes on
    the bot are none at all, or the deletion of the incoming message
    alone, or that deletion followed by one warning sent to the chat of
    the message. *)
Theorem handle_message_calls (json_loads : string -> result pyvalue)
    (client : option (ChatRequest -> result ChatCompletion))
    (profiles : list (string * Profile)) (config : Config) (bot : Bot)
    (str_lower : string -> string) (builtin_str : pyvalue -> string)
    (float_truth : string -> bool) (update : Update) :
  exists calls,
    handle_message json_loads client profiles config bot str_lower builtin_str
      float_truth update
    = (calls, Return tt)
    /\ (calls = []
        \/ exists msg,
             message update = Some msg
             /\ (calls = [delete_message (chat_id msg) (message_id msg)]
                 \/ exists warning_text,
                      calls = [ delete_message (chat_id msg) (message_id msg);
                                send_message (chat_id msg) warning_text ])).
Proof.
  unfold handle_message.
  destruct (message update) as [msg|]; [ | eexists; split; [ reflexivity | now left ] ].
  destruct (text msg) as [body|]; [ | eexists; split; [ reflexivity | now left ] ].
  destruct (String.eqb body ""); [ eexists; split; [ reflexivity | now left ] | ].
  destruct (match from_user msg with Some user => username user | None => None end)
    as [sender|]; [ | eexists; split; [ reflexivity | now left ] ].
  destruct (String.eqb sender ""
            || negb (String.eqb (str_lower sender)
                       (str_lower (get_target_username_normalized config))));
    [ eexists; split; [ reflexivity | now left ] | ].
  destruct (String.eqb (strip body) ""); [ eexists; split; [ reflexivity | now left ] | ].
  unfold pure_step, io_ret.
  destruct (classify json_loads client profiles (MODERATION_PROFILE config) (strip body))
    as [r|e]; cbn [io_bind io_try app];
    [ | eexists; split; [ reflexivity | now left ] ].
  destruct (truthy float_truth (allow r));
    [ eexists; split; [ reflexivity | now left ] | ].
  rewrite _delete_message_and_warn_calls. cbn [app io_try].
  eexists. split; [ reflexivity | ]. right. exists msg. split; [ reflexivity | ].
  destruct (on_delete_message bot (chat_id msg) (message_id msg)); [ | now left ].
  destruct (_build_warning_message builtin_str r) as [w|]; [ | now left ].
  right. now exists w.
Qed.

(** X17. A message whose sender has no user name, or a user name that
    differs from the normalized target name after lower-casing, is left
    alone: no call is made on the bot, whatever the classifier would
    answer. *)
Theorem handle_message_other_sender (json_loads : string -> result pyvalue)
    (client : option (ChatRequest -> result ChatCompletion))
    (profiles : list (string * Profile)) (config : Config) (bot : Bot)
    (str_lower : string -> string) (builtin_str : pyvalue -> string)
    (float_truth : string -> bool) (update : Update) (msg : Message) :
  message update = Some msg ->
  (forall user sender,
      from_user msg = Some user ->
      username user = Some sender ->
      str_lower sender <> str_lower (get_target_username_normalized config)) ->
  handle_message json_loads client profiles config bot str_lower builtin_str
    float_truth update
  = ([], Return tt).
Proof.
  intros Hmessage Hother. unfold handle_message. rewrite Hmessage.
  destruct (text msg) as [body|]; [ | reflexivity ].
  destruct (String.eqb body ""); [ reflexivity | ].
  destruct (from_user msg) as [user|]; [ | reflexivity ].
  destruct (username user) as [sender|] eqn:Hname; [ | reflexivity ].
  specialize (Hother user sender eq_refl Hname).
  apply String.eqb_neq in Hother. rewrite Hother.
  cbn [negb]. now rewrite orb_true_r.
Qed.

Lemma handle_message_other_sender_witness :
  handle_message Json.loads
    (replying (with_quotes "{`allow`: false, `reason`: `Off topic`}"))
    MODERATION_PROFILES example_config example_bot ascii_lower (fun _ => "")
    (fun _ => true) (message_from "grandma" "Did you watch the game?")
  = ([], Return tt).
Proof.
  apply (handle_message_other_sender Json.loads
           (replying (with_quotes "{`allow`: false, `reason`: `Off topic`}"))
           MODERATION_PROFILES example_config example_bot ascii_lower (fun _ => "")
           (fun _ => true) (message_from "grandma" "Did you watch the game?")
           (mkTelegramMessage (Some "Did you watch the game?")
              (Some (mkUser (Some "grandma"))) (-1001) 7)).
  - reflexivity.
  - intros user sender [= <-] [= <-]. vm_compute. discriminate.
Defined.

(** X18. A message without text, or whose text is empty once stripped
    of whitespace, is left alone, even when it comes from the watched
    user: no call is made on the bot. *)
Theorem handle_message_blank (json_loads : string -> result pyvalue)
    (client : option (ChatRequest -> result ChatCompletion))
    (profiles : list (string * Profile)) (config : Config) (bot : Bot)
    (str_lower : string -> string) (builtin_str : pyvalue -> string)
    (float_truth : string -> bool) (update : Update) (msg : Message) :
  message update = Some msg ->
  (forall body, text msg = Some body -> strip body = "") ->
  handle_message json_loads client profiles config bot str_lower builtin_str
    float_truth update
  = ([], Return tt).
Proof.
  intros Hmessage Hblank. unfold handle_message. rewrite Hmessage.
  destruct (text msg) as [body|]; [ | reflexivity ].
  rewrite (Hblank body eq_refl). cbn [String.eqb].
  destruct (String.eqb body ""); [ reflexivity | ].
  destruct (match from_user msg with Some user => username user | None => None end);
    [ | reflexivity ].
  now destruct (_ || _).
Qed.

Lemma handle_message_blank_witness :
  handle_message Json.loads
    (replying (with_quotes "{`allow`: false, `reason`: `Off topic`}"))
    MODERATION_PROFILES example_config example_bot ascii_lower (fun _ => "")
    (fun _ => true) (message_from "parent" (" " ++ nl ++ bytes [194; 160]))
  = ([], Return tt).
Proof.
  apply (handle_message_blank Json.loads
           (replying (with_quotes "{`allow`: false, `reason`: `Off topic`}"))
           MODERATION_PROFILES example_config example_bot ascii_lower (fun _ => "")
           (fun _ => true) (message_from "parent" (" " ++ nl ++ bytes [194; 160]))
           (mkTelegramMessage (Some (" " ++ nl ++ bytes [194; 160]))
              (Some (mkUser (Some "parent"))) (-1001) 7)).
  - reflexivity.
  - intros body [= <-]. reflexivity.
Defined.




(** With an output that takes every line, [Stdout.handle_message] is
    [handle_message]. *)
Lemma handle_message_quiet_output (json_loads : string -> result pyvalue)
    (client : option (ChatRequest -> result ChatCompletion))
    (profiles : list (string * Profile)) (config : Config) (bot : Bot)
    (str_lower : string -> string) (builtin_str : pyvalue -> string)
    (float_truth : string -> bool) (timestamp : string) (update : Update) :
  Stdout.handle_message json_loads client profiles config bot str_lower builtin_str
    float_truth timestamp (fun _ => Return tt) update
  = handle_message json_loads client profiles config bot str_lower builtin_str
      float_truth update.
Proof.
  unfold Stdout.handle_message, handle_message.
  destruct (message update) as [msg|]; [ | reflexivity ].
  destruct (text msg) as [body|]; [ | reflexivity ].
  destruct (String.eqb body ""); [ reflexivity | ].
  destruct (match from_user msg with Some user => username user | None => None end)
    as [sender|]; [ | reflexivity ].
  destruct (_ || _); [ reflexivity | ].
  destruct (String.eqb (strip body) ""); [ reflexivity | ].
  unfold pure_step, io_ret.
  destruct (classify json_loads client profiles (MODERATION_PROFILE config) (strip body))
    as [r|e]; cbn [io_bind io_try app]; [ | reflexivity ].
  destruct (truthy float_truth (allow r)); [ reflexivity | ].
  cbn [io_bind].
  now destruct (_delete_message_and_warn bot builtin_str msg r) as [calls [[]|e]].
Qed.

(** X20. When the response of [classify] for a message of the watched
    user has a false [allow], the handler first prints the BLOCKED line.
    If that succeeds, the first call on the bot is the deletion of the
    message, and the warning built from the response is sent to the same
    chat only if the deletion succeeded and the warning text could be
    built; nothing is raised.  If printing the BLOCKED line raises, no
    call is made on the bot, the message is neither deleted nor warned
    about, the ERROR line is printed, and the outcome of the handler is
    the outcome of that second [print]. *)
Theorem handle_message_blocked (json_loads : string -> result pyvalue)
    (client : option (ChatRequest -> result ChatCompletion))
    (profiles : list (string * Profile)) (config : Config) (bot : Bot)
    (str_lower : string -> string) (builtin_str : pyvalue -> string)
    (float_truth : string -> bool) (timestamp : string)
    (print : string -> result unit) (update : Update) (msg : Message) (user : User)
    (sender body : string) (moderation_result : ModerationResponse) :
  message update = Some msg ->
  text msg = Some body ->
  from_user msg = Some user ->
  username user = Some sender ->
  sender <> "" ->
  str_lower sender = str_lower (get_target_username_normalized config) ->
  strip body <> "" ->
  classify json_loads client profiles (MODERATION_PROFILE config) (strip body)
  = Return moderation_result ->
  truthy float_truth (allow moderation_result) = false ->
  Stdout.handle_message json_loads client profiles config bot str_lower builtin_str
    float_truth timestamp print update
  = match print ("❌ BLOCKED: "
                 ++ Stdout.log_message builtin_str float_truth timestamp sender
                      (strip body) moderation_result) with
    | Return _ =>
        (delete_message (chat_id msg) (message_id msg)
           :: match on_delete_message bot (chat_id msg) (message_id msg),
                    _build_warning_message builtin_str moderation_result with
              | Return _, Return warning_text =>
                  [send_message (chat_id msg) warning_text]
              | _, _ => []
              end,
         Return tt)
    | Raise e =>
        ([], print ("⚠️ ERROR: " ++ Stdout.error_log timestamp sender (strip body) e))
    end.
Proof.
  intros Hmessage Htext Huser Hname Hsender Hmatch Hbody Hclassify Hallow.
  unfold Stdout.handle_message. rewrite Hmessage, Htext, Huser, Hname.
  destruct (String.eqb_spec body "") as [-> | _]; [ now destruct Hbody | ].
  destruct (String.eqb_spec sender "") as [Hs | _]; [ contradiction | ].
  rewrite Hmatch, String.eqb_refl. cbn [negb orb].
  destruct (String.eqb_spec (strip body) "") as [Hb | _]; [ contradiction | ].
  rewrite Hclassify. unfold pure_step at 1. cbn [io_bind]. rewrite Hallow.
  unfold pure_step.
  destruct (print _) as [[]|e]; cbn [io_bind io_try app].
  - rewrite _delete_message_and_warn_calls. reflexivity.
  - reflexivity.
Qed.

Lemma handle_message_blocked_witness :
  Stdout.handle_message Json.loads
    (replying (with_quotes "{`allow`: false, `category`: `off_topic`}"))
    MODERATION_PROFILES example_config example_bot ascii_lower (fun _ => "")
    (fun _ => true) "2026-01-02T03:04:05" (fun _ => Return tt)
    (message_from "parent" "Did you watch the game?")
  = ([ delete_message (-1001) 7;
       send_message (-1001)
         "This group is for co-parenting logistics only (health, education, scheduling, logistics). Your message was off-topic for this co-parenting logistics group." ],
     Return tt)
  /\ Stdout.handle_message Json.loads
       (replying (with_quotes "{`allow`: false, `category`: `off_topic`}"))
       MODERATION_PROFILES example_config example_bot ascii_lower (fun _ => "")
       (fun _ => true) "2026-01-02T03:04:05"
       (fun _ => Raise (mkExn (OtherException "UnicodeEncodeError")
                          "'ascii' codec can't encode character"))
       (message_from "parent" "Did you watch the game?")
     = ([], Raise (mkExn (OtherException "UnicodeEncodeError")
                     "'ascii' codec can't encode character")).
Proof.
  split.
  - apply (handle_message_blocked Json.loads
             (replying (with_quotes "{`allow`: false, `category`: `off_topic`}"))
             MODERATION_PROFILES example_config example_bot ascii_lower (fun _ => "")
             (fun _ => true) "2026-01-02T03:04:05" (fun _ => Return tt)
             (message_from "parent" "Did you watch the game?")
             (mkTelegramMessage (Some "Did you watch the game?")
                (Some (mkUser (Some "parent"))) (-1001) 7)
             (mkUser (Some "parent")) "parent" "Did you watch the game?"
             (mkResponse (VBool false) (VStr "No reason provided") (VStr "off_topic")));
      try reflexivity; discriminate.
  - apply (handle_message_blocked Json.loads
             (replying (with_quotes "{`allow`: false, `category`: `off_topic`}"))
             MODERATION_PROFILES example_config example_bot ascii_lower (fun _ => "")
             (fun _ => true) "2026-01-02T03:04:05"
             (fun _ => Raise (mkExn (OtherException "UnicodeEncodeError")
                                "'ascii' codec can't encode character"))
             (message_from "parent" "Did you watch the game?")
             (mkTelegramMessage (Some "Did you watch the game?")
                (Some (mkUser (Some "parent"))) (-1001) 7)
             (mkUser (Some "parent")) "parent" "Did you watch the game?"
             (mkResponse (VBool false) (VStr "No reason provided") (VStr "off_topic")));
      try reflexivity; discriminate.
Defined.



(** ** The command handlers *)

Lemma io_bind_pure {A B : Type} (a : A) (k : A -> io B) :
  io_bind (pure_step (Return a)) k = k a.
Proof. unfold io_bind, pure_step. now destruct (k a). Qed.

(** Go to the part of a text that starts with [marker]. *)
Ltac skip_to marker :=
  repeat lazymatch goal with
         | |- occurs _ (marker ++ _) => fail
         | |- occurs _ (?a ++ _) => apply (occurs_app_l _ _ a)
         end.

(** X22. For a profile without the permissive_mode key, the three
    command handlers reply that the mode is Strict, while [classify]
    treats the same profile as permissive when the classifier call
    fails.  Each handler makes one call, the reply to the incoming
    message, and the outcome of that call is the outcome of the handler:
    a failed reply is not caught. *)
Theorem commands_show_strict_without_flag (profiles : list (string * Profile))
    (config : Config) (bot : Bot) (update : Update) (msg : Message)
    (profile : Profile) :
  message update = Some msg ->
  get_moderation_profile profiles (MODERATION_PROFILE config) = Return profile ->
  permissive_mode profile = None ->
  (exists body,
      handle_start profiles config bot update
      = ([reply_text msg body], on_reply_text bot msg body)
      /\ occurs "Mode: Strict" body)
  /\ (exists body,
         handle_status profiles config bot update
         = ([reply_text msg body], on_reply_text bot msg body)
         /\ occurs "Mode: Strict" body)
  /\ (exists body,
         handle_profile profiles config bot update
         = ([reply_text msg body], on_reply_text bot msg body)
         /\ occurs "Mode: Strict (blocks any violations)" body)
  /\ forall json_loads client text e,
       _classify_with_openai json_loads client profiles (MODERATION_PROFILE config) text
       = Raise e ->
       classify json_loads client profiles (MODERATION_PROFILE config) text
       = Return (mkResponse (VBool true)
                   (VStr "Unable to evaluate - allowing due to permissive mode")
                   (VStr "error_permissive")).
Proof.
  intros Hmessage Hprofile Hflag.
  assert (permissive_shown profile = false) as Hshown
    by (unfold permissive_shown; now rewrite Hflag).
  repeat split.
  - unfold handle_start. rewrite Hmessage, Hprofile, io_bind_pure, Hshown.
    eexists. split; [ reflexivity | ].
    skip_to "🔍 Mode: ". eexists "🔍 ", _. reflexivity.
  - unfold handle_status. rewrite Hmessage, Hprofile, io_bind_pure, Hshown.
    eexists. split; [ reflexivity | ].
    skip_to "⚙️ Mode: ". eexists "⚙️ ", _. reflexivity.
  - unfold handle_profile. rewrite Hmessage, Hprofile, io_bind_pure, Hshown.
    eexists. split; [ reflexivity | ].
    destruct (behaviors profile); rewrite ?append_assoc;
      skip_to "⚙️ Mode: "; eexists "⚙️ ", _; reflexivity.
  - intros json_loads client text e Hraise.
    rewrite (classify_failure _ _ _ _ _ _ _ Hraise Hprofile), Hflag. reflexivity.
Qed.

Lemma commands_show_strict_without_flag_witness :
  exists body,
    handle_start strict_profiles
      (mkConfig "123:token" "sk-key" "@parent" "unset" "INFO") example_bot
      (message_from "anyone" "/start")
    = ([reply_text (mkTelegramMessage (Some "/start") (Some (mkUser (Some "anyone")))
                      (-1001) 7) body],
       Return tt)
    /\ occurs "Mode: Strict" body.
Proof.
  apply (commands_show_strict_without_flag strict_profiles
           (mkConfig "123:token" "sk-key" "@parent" "unset" "INFO") example_bot
           (message_from "anyone" "/start")
           (mkTelegramMessage (Some "/start") (Some (mkUser (Some "anyone"))) (-1001) 7)
           (mkProfile "Unset" "No permissive_mode key" [] None));
    reflexivity.
Defined.

(** X23. The reply of [handle_profile] shows the description of the
    active profile and, when the profile has behaviors, every one of
    them as a bullet line of its own. *)
Theorem handle_profile_shows_profile (profiles : list (string * Profile))
    (config : Config) (bot : Bot) (update : Update) (msg : Message)
    (profile : Profile) :
  message update = Some msg ->
  get_moderation_profile profiles (MODERATION_PROFILE config) = Return profile ->
  exists body,
    handle_profile profiles config bot update
    = ([reply_text msg body], on_reply_text bot msg body)
    /\ occurs ("Description: " ++ description profile ++ nl) body
    /\ forall behavior, In behavior (behaviors profile) ->
         occurs (nl ++ "• " ++ behavior ++ nl) body.
Proof.
  intros Hmessage Hprofile.
  unfold handle_profile. rewrite Hmessage, Hprofile, io_bind_pure.
  eexists. split; [ reflexivity | ].
  destruct (behaviors profile) as [|x l]; (split; [ | intros behavior Hin ]).
  - rewrite !append_assoc. skip_to "📝 Description: ".
    eexists "📝 ", _. cbn. rewrite !append_assoc. reflexivity.
  - contradiction.
  - rewrite !append_assoc. skip_to "📝 Description: ".
    eexists "📝 ", _. cbn. rewrite !append_assoc. reflexivity.
  - rewrite !append_assoc. skip_to "🔍 Watching for these patterns:".
    apply occurs_app_l. cbn [map].
    rewrite <- (append_assoc nl (join nl _)), join_prefixed.
    apply (prefixed_lines_occurs
             (("• " ++ x) :: map (fun behavior0 => "• " ++ behavior0) l)
             ("• " ++ behavior)).
    now apply (in_map (fun behavior0 => "• " ++ behavior0) (x :: l)).
Qed.

Lemma handle_profile_shows_profile_witness :
  exists body,
    handle_profile MODERATION_PROFILES
      (mkConfig "123:token" "sk-key" "@parent" "manipulative_coparent" "INFO")
      example_bot (message_from "anyone" "/profile")
    = ([reply_text (mkTelegramMessage (Some "/profile") (Some (mkUser (Some "anyone")))
                      (-1001) 7) body],
       Return tt)
    /\ occurs ("Description: Someone who tends toward performative behavior, narrative crafting, and inconsistent actions" ++ nl) body
    /\ forall behavior,
         In behavior
           [ "performative posturing without follow-through";
             "crafting narratives about being good while failing to take positive action";
             "manipulative language designed to appear reasonable";
             "deflection from actual logistics to emotional manipulation";
             "making themselves appear as the victim or hero";
             "saying the right things but consistently failing to act";
             "using guilt, blame, or emotional pressure instead of facts";
             "grandstanding or virtue signaling without substance" ] ->
         occurs (nl ++ "• " ++ behavior ++ nl) body.
Proof.
  apply (handle_profile_shows_profile MODERATION_PROFILES
           (mkConfig "123:token" "sk-key" "@parent" "manipulative_coparent" "INFO")
           example_bot (message_from "anyone" "/profile")
           (mkTelegramMessage (Some "/profile") (Some (mkUser (Some "anyone")))
              (-1001) 7)
           (dict_get MODERATION_PROFILES "manipulative_coparent" standard_profile));
    reflexivity.
Defined.
